(** * Browser integration-test harness: launch-and-bridge orchestration

    A shallow embedding of the two entry points of the repository,
    [src/src/index.ts] (module [Src], the refined variant) and
    [src/lib/index.ts] (module [Lib], the earlier variant), and the
    properties their specification states about them.

    JavaScript strings are modelled as [string] (8-bit characters; the
    texts the harness handles are ASCII), [process.env] as a finite map,
    JSON values as an inductive type whose objects are association lists
    in insertion order, and the asynchronous code as programs of a small
    state-and-exception monad that records every call to the outside
    world (browser, child process, console) in a trace. *)

From Stdlib Require Import ZArith String Ascii List Bool Lia DecimalString.
From stdpp Require Import gmap strings.
Import ListNotations.

Set Warnings "-register-all".
Local Open Scope string_scope.
Local Open Scope Z_scope.

(** ** String helpers *)

Module Str.

Fixpoint take_while (p : ascii -> bool) (s : string) : string :=
  match s with
  | EmptyString => EmptyString
  | String c r => if p c then String c (take_while p r) else EmptyString
  end.

Fixpoint drop_while (p : ascii -> bool) (s : string) : string :=
  match s with
  | EmptyString => EmptyString
  | String c r => if p c then drop_while p r else s
  end.

Fixpoint forallb (p : ascii -> bool) (s : string) : bool :=
  match s with
  | EmptyString => true
  | String c r => p c && forallb p r
  end.

Fixpoint rev_append (s acc : string) : string :=
  match s with
  | EmptyString => acc
  | String c r => rev_append r (String c acc)
  end.

Definition rev (s : string) : string := rev_append s EmptyString.

Fixpoint drop (n : nat) (s : string) : string :=
  match n, s with
  | O, _ => s
  | S n', EmptyString => EmptyString
  | S n', String _ r => drop n' r
  end.

(** Pieces of [s] between the characters satisfying [d]; never empty. *)
Fixpoint split_on (d : ascii -> bool) (s : string) : list string :=
  match s with
  | EmptyString => [EmptyString]
  | String c r =>
      if d c then EmptyString :: split_on d r
      else match split_on d r with
           | x :: xs => String c x :: xs
           | [] => [String c EmptyString]
           end
  end.

(** [s.replace(/c/g, by)] for a single character [c]. *)
Fixpoint replace_char (c : ascii) (by_ : string) (s : string) : string :=
  match s with
  | EmptyString => EmptyString
  | String x r =>
      if Ascii.eqb x c then by_ +:+ replace_char c by_ r
      else String x (replace_char c by_ r)
  end.

Definition is_lower (c : ascii) : bool :=
  let n := nat_of_ascii c in (97 <=? n)%nat && (n <=? 122)%nat.

Definition is_upper (c : ascii) : bool :=
  let n := nat_of_ascii c in (65 <=? n)%nat && (n <=? 90)%nat.

(** [String.prototype.toUpperCase] / [toLowerCase] on ASCII text. *)
Definition upper_char (c : ascii) : ascii :=
  if is_lower c then ascii_of_nat (nat_of_ascii c - 32) else c.

Definition lower_char (c : ascii) : ascii :=
  if is_upper c then ascii_of_nat (nat_of_ascii c + 32) else c.

Fixpoint map (f : ascii -> ascii) (s : string) : string :=
  match s with
  | EmptyString => EmptyString
  | String c r => String (f c) (map f r)
  end.

Definition toUpperCase : string -> string := map upper_char.
Definition toLowerCase : string -> string := map lower_char.

(** [s.charAt(0)] and [s.slice(1)]. *)
Definition charAt0 (s : string) : string :=
  match s with
  | EmptyString => EmptyString
  | String c _ => String c EmptyString
  end.

Definition slice1 (s : string) : string := drop 1 s.

Definition is_space (c : ascii) : bool :=
  let n := nat_of_ascii c in
  (n =? 32)%nat || (n =? 9)%nat || (n =? 10)%nat || (n =? 13)%nat.

Definition trim (s : string) : string :=
  rev (drop_while is_space (rev (drop_while is_space s))).

(** An integer in decimal, as a template string prints it. *)
Definition of_Z (z : Z) : string := NilZero.string_of_int (Z.to_int z).

(** The double-quote character, as a one-character string. *)
Definition dquote : string := String "034"%char EmptyString.

End Str.

(** ** The Node library functions the harness calls

    These are functions of Node's standard library, not of the
    repository; they are modelled to the extent the harness uses them. *)

Module Node.

Definition is_slash (c : ascii) : bool := Ascii.eqb c "/".
Definition is_dot (c : ascii) : bool := Ascii.eqb c ".".

(** Last component of a POSIX path, trailing slashes ignored, reversed. *)
Definition last_part_rev (p : string) : string :=
  Str.take_while (fun c => negb (is_slash c)) (Str.drop_while is_slash (Str.rev p)).

(** [path.extname] (POSIX): from the last dot of the last component to its
    end; empty when there is no dot, when the only dot starts the component,
    and for the component [..]. *)
Definition extname (p : string) : string :=
  let part_rev := last_part_rev p in
  let ext_rev := Str.take_while (fun c => negb (is_dot c)) part_rev in
  match Str.drop_while (fun c => negb (is_dot c)) part_rev with
  | EmptyString => EmptyString
  | String _ EmptyString => EmptyString
  | String _ _ =>
      if String.eqb part_rev ".." then EmptyString
      else Str.rev (ext_rev +:+ ".")
  end.

(** [url.format({ pathname, protocol, host, slashes: true })]: the
    protocol gets its colon, [#] and [?] of the pathname are escaped, a
    pathname that does not start with a slash gets one, and a [null] or
    empty host contributes nothing after the two slashes. *)
Definition url_format (pathname protocol : string) (host : option string) : string :=
  let protocol' :=
    match Str.rev protocol with
    | EmptyString => EmptyString
    | String c _ => if Ascii.eqb c ":" then protocol else protocol +:+ ":"
    end in
  let escaped := Str.replace_char "?" "%3F" (Str.replace_char "#" "%23" pathname) in
  let pathname' :=
    match escaped with
    | EmptyString => EmptyString
    | String c _ => if is_slash c then escaped else "/" +:+ escaped
    end in
  let host' := match host with Some h => h | None => EmptyString end in
  protocol' +:+ "//" +:+ host' +:+ pathname'.

(** The result of [url.parse], restricted to the two fields read. *)
Record Url := { href : string; host : option string }.

Definition is_host_end (c : ascii) : bool :=
  Ascii.eqb c "/" || Ascii.eqb c "?" || Ascii.eqb c "#".

Definition is_scheme_char (c : ascii) : bool :=
  Str.is_lower c || Str.is_upper c ||
  (let n := nat_of_ascii c in (48 <=? n)%nat && (n <=? 57)%nat) ||
  Ascii.eqb c "+" || Ascii.eqb c "-" || Ascii.eqb c ".".

(** Text after the last [@] of an authority, or the whole of it. *)
Definition strip_auth (authority : string) : string :=
  Str.rev (Str.take_while (fun c => negb (Ascii.eqb c "@")) (Str.rev authority)).

Definition auth_part (authority : string) : string :=
  Str.rev (Str.drop_while (fun c => negb (Ascii.eqb c "@")) (Str.rev authority)).

(** [url.parse] (the legacy parser) on an address [scheme://authority...]:
    surrounding white space is trimmed, the scheme and the host are
    lower-cased, the host runs to the first [/], [?] or [#], and an empty
    path becomes [/] in [href]. An input without [scheme://] has no host
    and is its own [href]. *)
Definition url_parse (input : string) : Url :=
  let s := Str.trim input in
  let scheme := Str.take_while is_scheme_char s in
  match Str.drop_while is_scheme_char s with
  | String ":" (String "/" (String "/" rest)) =>
      let authority := Str.take_while (fun c => negb (is_host_end c)) rest in
      let tail := Str.drop_while (fun c => negb (is_host_end c)) rest in
      let h := Str.toLowerCase (strip_auth authority) in
      let tail' :=
        match tail with
        | String "/" _ => tail
        | _ => "/" +:+ tail
        end in
      {| href := Str.toLowerCase scheme +:+ "://" +:+ auth_part authority +:+ h +:+ tail';
         host := match h with EmptyString => None | _ => Some h end |}
  | _ => {| href := s; host := None |}
  end.

(** [buf.toString('ascii')]: every byte loses its high bit. *)
Definition toString_ascii (chunk : string) : string :=
  Str.map (fun c => ascii_of_nat (nat_of_ascii c mod 128)) chunk.

(** Line terminators, which the [.] of a regular expression does not match. *)
Definition is_line_terminator (c : ascii) : bool :=
  let n := nat_of_ascii c in (n =? 10)%nat || (n =? 13)%nat.

(** [/PREFIX(.+)/] tried at the start of [text], for a literal [PREFIX]:
    the literal must be followed by at least one character that is not a
    line terminator; the group is the longest run of such characters. *)
Definition match_here (pre : string) (text : string) : option string :=
  if String.prefix pre text then
    match Str.take_while (fun c => negb (is_line_terminator c))
            (Str.drop (String.length pre) text) with
    | EmptyString => None
    | group => Some group
    end
  else None.

(** [text.match(/PREFIX(.+)/)]: the first group of the leftmost match. *)
Fixpoint match_prefix_dotplus (pre : string) (text : string) : option string :=
  match match_here pre text with
  | Some group => Some group
  | None =>
      match text with
      | EmptyString => None
      | String _ r => match_prefix_dotplus pre r
      end
  end.

End Node.

(** ** JavaScript values, [JSON.parse], base64 and dates *)

Module Js.

(** A number is a decimal [mantissa * 10^exponent] or [NaN]. *)
Inductive number :=
| Num (mantissa exponent : Z)
| NaN.

Inductive value :=
| VUndefined
| VNull
| VBool (b : bool)
| VNum (n : number)
| VStr (s : string)
| VArr (items : list value)
| VObj (fields : list (string * value))
| VError (message : string).

(** [obj[k]] on the own properties of an object. *)
Fixpoint get_field (k : string) (fields : list (string * value)) : value :=
  match fields with
  | [] => VUndefined
  | (k', v) :: r => if String.eqb k k' then v else get_field k r
  end.

(** [obj[k] = v]: an existing property keeps its place, a new one is added
    at the end. *)
Fixpoint set_field (k : string) (v : value) (fields : list (string * value))
  : list (string * value) :=
  match fields with
  | [] => [(k, v)]
  | (k', v') :: r =>
      if String.eqb k k' then (k, v) :: r else (k', v') :: set_field k v r
  end.

(** [String(v)] for the values put into template strings. *)
Definition to_display (v : value) : string :=
  match v with
  | VStr s => s
  | VError m => "Error: " +:+ m
  | VUndefined => "undefined"
  | VNull => "null"
  | VBool true => "true"
  | VBool false => "false"
  | _ => "[object]"
  end.

(** *** [JSON.parse] *)

Definition is_digit (c : ascii) : bool :=
  let n := nat_of_ascii c in (48 <=? n)%nat && (n <=? 57)%nat.

Definition digit_val (c : ascii) : Z := Z.of_nat (nat_of_ascii c) - 48.

Definition hex_val (c : ascii) : option Z :=
  let n := Z.of_nat (nat_of_ascii c) in
  if (48 <=? n) && (n <=? 57) then Some (n - 48)
  else if (97 <=? n) && (n <=? 102) then Some (n - 87)
  else if (65 <=? n) && (n <=? 70) then Some (n - 55)
  else None.

Definition skip_ws (s : string) : string := Str.drop_while Str.is_space s.

(** Digits at the head of [s], folded into [acc]; the count of digits read. *)
Fixpoint read_digits (s : string) (acc : Z) (count : Z) : Z * Z * string :=
  match s with
  | String c r =>
      if is_digit c then read_digits r (acc * 10 + digit_val c) (count + 1)
      else (acc, count, s)
  | EmptyString => (acc, count, s)
  end.

(** [-? int frac? exp?] of the JSON grammar. *)
Definition parse_number (s : string) : option (number * string) :=
  let '(neg, s1) :=
    match s with
    | String "-" r => (true, r)
    | _ => (false, s)
    end in
  let int_part :=
    match s1 with
    | String "0" r => Some (0, r)
    | String c _ =>
        if is_digit c then
          let '(m, _, r) := read_digits s1 0 0 in Some (m, r)
        else None
    | EmptyString => None
    end in
  match int_part with
  | None => None
  | Some (m, s2) =>
      let frac :=
        match s2 with
        | String "." r =>
            let '(m', k, r') := read_digits r m 0 in
            if k =? 0 then None else Some (m', k, r')
        | _ => Some (m, 0, s2)
        end in
      match frac with
      | None => None
      | Some (m2, k, s3) =>
          let signed := if neg then - m2 else m2 in
          let with_exp (r : string) :=
            let '(eneg, r1) :=
              match r with
              | String "-" r' => (true, r')
              | String "+" r' => (false, r')
              | _ => (false, r)
              end in
            let '(e, n, r2) := read_digits r1 0 0 in
            if n =? 0 then None
            else Some (Num signed ((if eneg then - e else e) - k), r2) in
          match s3 with
          | String "e" r => with_exp r
          | String "E" r => with_exp r
          | _ => Some (Num signed (- k), s3)
          end
      end
  end.

(** The characters of a string literal after its opening quote. Escapes
    above [ÿ] have no 8-bit character and are outside the model. *)
Fixpoint parse_string_body (s : string) : option (string * string) :=
  match s with
  | EmptyString => None
  | String c r =>
      if Ascii.eqb c "034" then Some (EmptyString, r)
      else if Ascii.eqb c "\" then
        match r with
        | String e r' =>
            let simple (x : ascii) :=
              match parse_string_body r' with
              | Some (body, rest) => Some (String x body, rest)
              | None => None
              end in
            if Ascii.eqb e "034" then simple "034"%char
            else if Ascii.eqb e "\" then simple "\"%char
            else if Ascii.eqb e "/" then simple "/"%char
            else if Ascii.eqb e "b" then simple "008"%char
            else if Ascii.eqb e "f" then simple "012"%char
            else if Ascii.eqb e "n" then simple "010"%char
            else if Ascii.eqb e "r" then simple "013"%char
            else if Ascii.eqb e "t" then simple "009"%char
            else if Ascii.eqb e "u" then
              match r' with
              | String h1 (String h2 (String h3 (String h4 r''))) =>
                  match hex_val h1, hex_val h2, hex_val h3, hex_val h4 with
                  | Some 0, Some 0, Some a, Some b =>
                      match parse_string_body r'' with
                      | Some (body, rest) =>
                          Some (String (ascii_of_nat (Z.to_nat (a * 16 + b))) body, rest)
                      | None => None
                      end
                  | _, _, _, _ => None
                  end
              | _ => None
              end
            else None
        | EmptyString => None
        end
      else if (nat_of_ascii c <? 32)%nat then None
      else
        match parse_string_body r with
        | Some (body, rest) => Some (String c body, rest)
        | None => None
        end
  end.

(** Recursive descent over the JSON grammar; every call consumes input, so
    a fuel of the text's length is enough. *)
Fixpoint parse_value (fuel : nat) (s : string) : option (value * string) :=
  match fuel with
  | O => None
  | S fuel' =>
      let fix parse_elements (n : nat) (s : string) (acc : list value)
        : option (value * string) :=
        match n with
        | O => None
        | S n' =>
            match parse_value fuel' (skip_ws s) with
            | Some (v, r) =>
                match skip_ws r with
                | String "," r' => parse_elements n' r' (acc ++ [v])%list
                | String "]" r' => Some (VArr (acc ++ [v])%list, r')
                | _ => None
                end
            | None => None
            end
        end in
      let fix parse_members (n : nat) (s : string) (acc : list (string * value))
        : option (value * string) :=
        match n with
        | O => None
        | S n' =>
            match skip_ws s with
            | String "034" r =>
                match parse_string_body r with
                | Some (k, r1) =>
                    match skip_ws r1 with
                    | String ":" r2 =>
                        match parse_value fuel' (skip_ws r2) with
                        | Some (v, r3) =>
                            match skip_ws r3 with
                            | String "," r4 => parse_members n' r4 (set_field k v acc)
                            | String "}" r4 => Some (VObj (set_field k v acc), r4)
                            | _ => None
                            end
                        | None => None
                        end
                    | _ => None
                    end
                | None => None
                end
            | _ => None
            end
        end in
      match s with
      | String "n" (String "u" (String "l" (String "l" r))) => Some (VNull, r)
      | String "t" (String "r" (String "u" (String "e" r))) => Some (VBool true, r)
      | String "f" (String "a" (String "l" (String "s" (String "e" r)))) =>
          Some (VBool false, r)
      | String "034" r =>
          match parse_string_body r with
          | Some (str, r') => Some (VStr str, r')
          | None => None
          end
      | String "[" r =>
          match skip_ws r with
          | String "]" r' => Some (VArr [], r')
          | _ => parse_elements fuel' r []
          end
      | String "{" r =>
          match skip_ws r with
          | String "}" r' => Some (VObj [], r')
          | _ => parse_members fuel' r []
          end
      | _ =>
          match parse_number s with
          | Some (n, r) => Some (VNum n, r)
          | None => None
          end
      end
  end.

(** [JSON.parse(text)]; [None] stands for the [SyntaxError] it throws. *)
Definition JSON_parse (text : string) : option value :=
  match parse_value (S (String.length text)) (skip_ws text) with
  | Some (v, r) =>
      match skip_ws r with
      | EmptyString => Some v
      | _ => None
      end
  | None => None
  end.

(** *** [Buffer.from(text, 'base64').toString()] *)

Definition sextet (c : ascii) : option Z :=
  let n := Z.of_nat (nat_of_ascii c) in
  if (65 <=? n) && (n <=? 90) then Some (n - 65)
  else if (97 <=? n) && (n <=? 122) then Some (n - 71)
  else if (48 <=? n) && (n <=? 57) then Some (n + 4)
  else if (n =? 43) || (n =? 45) then Some 62
  else if (n =? 47) || (n =? 95) then Some 63
  else None.

(** The sextets of the text up to its padding; characters outside the
    alphabet (white space, line breaks) are skipped. *)
Fixpoint sextets (s : string) : list Z :=
  match s with
  | EmptyString => []
  | String c r =>
      if Ascii.eqb c "=" then []
      else match sextet c with
           | Some v => v :: sextets r
           | None => sextets r
           end
  end.

Definition byte (n : Z) : ascii := ascii_of_nat (Z.to_nat (Z.land n 255)).

Fixpoint bytes_of_sextets (l : list Z) : string :=
  match l with
  | a :: b :: c :: d :: r =>
      let w := Z.lor (Z.shiftl a 18) (Z.lor (Z.shiftl b 12) (Z.lor (Z.shiftl c 6) d)) in
      String (byte (Z.shiftr w 16)) (String (byte (Z.shiftr w 8))
        (String (byte w) (bytes_of_sextets r)))
  | [a; b; c] =>
      let w := Z.lor (Z.shiftl a 18) (Z.lor (Z.shiftl b 12) (Z.shiftl c 6)) in
      String (byte (Z.shiftr w 16)) (String (byte (Z.shiftr w 8)) EmptyString)
  | [a; b] =>
      let w := Z.lor (Z.shiftl a 18) (Z.shiftl b 12) in
      String (byte (Z.shiftr w 16)) EmptyString
  | _ => EmptyString
  end.

Definition base64_toString (text : string) : string :=
  bytes_of_sextets (sextets text).

(** *** Dates *)

(** [+((ms / 1000).toFixed(0))]: the milliseconds in seconds, rounded to
    the nearest integer, halves away from zero; [NaN] for an invalid date. *)
Definition epoch_seconds (getTime : option Z) : number :=
  match getTime with
  | Some ms =>
      if 0 <=? ms then Num ((ms + 500) / 1000) 0
      else Num (- ((- ms + 500) / 1000)) 0
  | None => NaN
  end.

(** Days from 1970-01-01 to the given civil date (proleptic Gregorian). *)
Definition days_from_civil (y m d : Z) : Z :=
  let y' := if m <=? 2 then y - 1 else y in
  let era := y' / 400 in
  let yoe := y' - era * 400 in
  let mp := (m + 9) mod 12 in
  let doy := (153 * mp + 2) / 5 + d - 1 in
  let doe := yoe * 365 + yoe / 4 - yoe / 100 + doy in
  era * 146097 + doe - 719468.

Definition read_fixed (n : Z) (s : string) : option (Z * string) :=
  let '(v, k, r) := read_digits s 0 0 in
  if k =? n then Some (v, r) else None.

(** [new Date(text).getTime()] for the UTC forms [YYYY-MM-DD],
    [YYYY-MM-DDTHH:mm:ssZ] and [YYYY-MM-DDTHH:mm:ss.sssZ]; [None] is an
    invalid date. Used where a concrete date parser is needed. *)
Definition iso_getTime (text : string) : option Z :=
  match read_fixed 4 text with
  | Some (y, String "-" r1) =>
      match read_fixed 2 r1 with
      | Some (m, String "-" r2) =>
          match read_fixed 2 r2 with
          | Some (d, r3) =>
              if negb ((1 <=? m) && (m <=? 12) && (1 <=? d) && (d <=? 31)) then None
              else
                let day_ms := days_from_civil y m d * 86400000 in
                match r3 with
                | EmptyString => Some day_ms
                | String "T" r4 =>
                    match read_fixed 2 r4 with
                    | Some (hh, String ":" r5) =>
                        match read_fixed 2 r5 with
                        | Some (mi, String ":" r6) =>
                            match read_fixed 2 r6 with
                            | Some (ss, r7) =>
                                let base := day_ms + ((hh * 60 + mi) * 60 + ss) * 1000 in
                                if negb ((hh <=? 23) && (mi <=? 59) && (ss <=? 59)) then None
                                else
                                  match r7 with
                                  | String "Z" EmptyString => Some base
                                  | String "." r8 =>
                                      match read_fixed 3 r8 with
                                      | Some (ms, String "Z" EmptyString) => Some (base + ms)
                                      | _ => None
                                      end
                                  | _ => None
                                  end
                            | None => None
                            end
                        | _ => None
                        end
                    | _ => None
                    end
                | _ => None
                end
          | None => None
          end
      | _ => None
      end
  | _ => None
  end.

End Js.

(** ** The outside world: events, process state and the harness monad *)

Module Harness.
Import Js.

(** [cp.ChildProcess], as far as the harness uses it. *)
Record ServerHandle := { pid : Z }.

(** [playwright.ConsoleMessage]: its type, its text, and for each argument
    what [arg.jsonValue()] settles to (a value, or the rejection). *)
Record ConsoleMessage := {
  msg_type : string;
  msg_text : string;
  msg_args : list (value + value)
}.

(** Every call that leaves the harness. *)
Inductive event :=
| ShowHelp
| Launch (browserType : string) (headless : bool)
| NewContext
| AddCookies (cookies : list value)
| NewPage
| SetViewportSize (width height : Z)
| PageOn (name : string)
| Goto (url : string)
| ExposeFunction (name : string)
| BrowserClose
| TreeKill (pid : Z)
| Console (method : string) (args : list value)
| TmpDirSync (prefix : string)
| Require (path : string)
| Spawn (command : string) (args : list string) (env : gmap string string)
    (stdio : list string)
| StreamOn (stream name : string)
| ProcessOn (name : string)
| ChildKill (pid : Z)
| RimrafSync (path : string)
| DefaultSignal (signo : Z)
| ProcessExit (code : Z).

(** The listeners the harness registers on [process], as data. *)
Inductive exit_listener :=
| RemoveTestData (testDataPath : string)
| KillOnExit (serverProcess : ServerHandle).

Inductive signal_listener :=
| KillServer (serverProcess : ServerHandle)
| KillServerAndExit (serverProcess : ServerHandle) (code : Z).

Inductive signal := SIGINT | SIGTERM.

Definition signo (s : signal) : Z :=
  match s with SIGINT => 2 | SIGTERM => 15 end.

Record state := {
  trace : list event;
  cookie_jar : list value;
  on_exit : list exit_listener;
  on_SIGINT : list signal_listener;
  on_SIGTERM : list signal_listener
}.

Definition initial : state :=
  {| trace := []; cookie_jar := []; on_exit := []; on_SIGINT := []; on_SIGTERM := [] |}.

(** [optimist.argv] *)
Record Argv := {
  argv_help : bool;
  argv_endpoint : option string;
  argv_authCookie : option string;
  argv_workspacePath : option string;
  argv_extensionDevelopmentPath : option string;
  argv_extensionTestsPath : option string;
  argv_debug : bool;
  argv_browser : string
}.

(** What the harness reads from its surroundings: the command line, the
    environment, the file system and platform, and which of its calls fail. *)
Record Host := {
  argv : Argv;
  env : gmap string string;
  win32 : bool;
  path_resolve : string -> string;
  path_join : list string -> string;
  URI_file_path : string -> string;
  Date_getTime : string -> option Z;
  tmp_name : string;
  serverApplicationName : string -> string;
  spawn_pid : Z;
  fails : event -> option value
}.

Inductive result (A : Type) :=
| Ret (a : A)
| Throw (error : value)
| Exit (code : Z).
Arguments Ret {A} a.
Arguments Throw {A} error.
Arguments Exit {A} code.

(** A program reads the host, changes the state, and returns, throws, or
    ends the process. *)
Definition M (A : Type) : Type := Host -> state -> result A * state.

#[export] Instance M_ret : MRet M := fun A a _ st => (Ret a, st).

#[export] Instance M_bind : MBind M := fun A B k m h st =>
  match m h st with
  | (Ret a, st') => k a h st'
  | (Throw e, st') => (Throw e, st')
  | (Exit c, st') => (Exit c, st')
  end.

Definition ask : M Host := fun h st => (Ret h, st).

Definition throw {A} (e : value) : M A := fun _ st => (Throw e, st).

(** [try { m } catch (error) { handler error }] *)
Definition try_catch {A} (m : M A) (handler : value -> M A) : M A := fun h st =>
  match m h st with
  | (Throw e, st') => handler e h st'
  | r => r
  end.

Definition log_event (e : event) (st : state) : state :=
  {| trace := trace st ++ [e]; cookie_jar := cookie_jar st; on_exit := on_exit st;
     on_SIGINT := on_SIGINT st; on_SIGTERM := on_SIGTERM st |}.

(** A call that cannot fail. *)
Definition emit (e : event) : M unit := fun _ st => (Ret tt, log_event e st).

(** A call that the host may make fail: it is attempted either way. *)
Definition call (e : event) : M unit := fun h st =>
  match fails h e with
  | Some err => (Throw err, log_event e st)
  | None => (Ret tt, log_event e st)
  end.

(** [context.addCookies(cookies)] *)
Definition addCookies (cookies : list value) : M unit := fun h st =>
  match fails h (AddCookies cookies) with
  | Some err => (Throw err, log_event (AddCookies cookies) st)
  | None =>
      (Ret tt,
       let st' := log_event (AddCookies cookies) st in
       {| trace := trace st'; cookie_jar := cookie_jar st' ++ cookies;
          on_exit := on_exit st'; on_SIGINT := on_SIGINT st';
          on_SIGTERM := on_SIGTERM st' |})
  end.

(** [process.on('exit', l)] (also [process.once]: the event happens once). *)
Definition process_on_exit (l : exit_listener) : M unit := fun _ st =>
  (Ret tt,
   let st' := log_event (ProcessOn "exit") st in
   {| trace := trace st'; cookie_jar := cookie_jar st'; on_exit := on_exit st' ++ [l];
      on_SIGINT := on_SIGINT st'; on_SIGTERM := on_SIGTERM st' |}).

Definition process_on_signal (s : signal) (l : signal_listener) : M unit := fun _ st =>
  (Ret tt,
   match s with
   | SIGINT =>
       let st' := log_event (ProcessOn "SIGINT") st in
       {| trace := trace st'; cookie_jar := cookie_jar st'; on_exit := on_exit st';
          on_SIGINT := on_SIGINT st' ++ [l]; on_SIGTERM := on_SIGTERM st' |}
   | SIGTERM =>
       let st' := log_event (ProcessOn "SIGTERM") st in
       {| trace := trace st'; cookie_jar := cookie_jar st'; on_exit := on_exit st';
          on_SIGINT := on_SIGINT st'; on_SIGTERM := on_SIGTERM st' ++ [l] |}
   end).

Definition exit_listener_event (l : exit_listener) : event :=
  match l with
  | RemoveTestData p => RimrafSync p
  | KillOnExit s => ChildKill (pid s)
  end.

(** [process.exit(code)]: the ['exit'] listeners run, in the order they
    were registered, and the process ends with [code]. *)
Definition process_exit {A} (code : Z) : M A := fun _ st =>
  (Exit code,
   {| trace := trace st ++ List.map exit_listener_event (on_exit st) ++ [ProcessExit code];
      cookie_jar := cookie_jar st; on_exit := on_exit st;
      on_SIGINT := on_SIGINT st; on_SIGTERM := on_SIGTERM st |}).

Definition run_signal_listener (l : signal_listener) : M unit :=
  match l with
  | KillServer s => emit (ChildKill (pid s))
  | KillServerAndExit s code => emit (ChildKill (pid s)) ;; process_exit code
  end.

Fixpoint run_signal_listeners (ls : list signal_listener) : M unit :=
  match ls with
  | [] => mret tt
  | l :: r => run_signal_listener l ;; run_signal_listeners r
  end.

(** Delivery of a signal to the outer process. Node runs the listeners of
    the signal; only when there is none does the signal take its default
    action, which ends the process with [128 + signo]. *)
Definition deliver (s : signal) : M unit := fun h st =>
  match (match s with SIGINT => on_SIGINT st | SIGTERM => on_SIGTERM st end) with
  | [] => (Exit (128 + signo s), log_event (DefaultSignal (signo s)) st)
  | ls => run_signal_listeners ls h st
  end.

(** JavaScript truthiness. *)
Definition truthy (v : value) : bool :=
  match v with
  | VUndefined | VNull | VBool false | VNum NaN | VStr EmptyString => false
  | VNum (Num m _) => negb (m =? 0)
  | _ => true
  end.

(** A string-valued flag or environment variable that is set and not empty. *)
Definition truthy_str (o : option string) : option string :=
  match o with
  | Some EmptyString => None
  | _ => o
  end.

(** [v[k]] for reading: a [TypeError] on [null] and [undefined]. *)
Definition get_prop (v : value) (k : string) : M value :=
  match v with
  | VObj fields => mret (get_field k fields)
  | VNull | VUndefined =>
      throw (VError ("TypeError: Cannot read properties of " +:+ to_display v))
  | _ => mret VUndefined
  end.

(** [v[k] = x] on an object. *)
Definition set_prop (v : value) (k : string) (x : value) : value :=
  match v with
  | VObj fields => VObj (set_field k x fields)
  | _ => v
  end.

(** The methods of Node's [console]. *)
Definition console_methods : list string :=
  ["log"; "warn"; "error"; "info"; "debug"; "dir"; "dirxml"; "table"; "trace";
   "assert"; "clear"; "count"; "countReset"; "group"; "groupCollapsed";
   "groupEnd"; "time"; "timeEnd"; "timeLog"; "profile"; "profileEnd";
   "timeStamp"].

Definition console_has (method : string) : bool :=
  existsb (String.eqb method) console_methods.

(** What [Promise.all] settles to: all the values, or the first rejection. *)
Fixpoint settle_all (args : list (value + value)) : list value + value :=
  match args with
  | [] => inl []
  | inl v :: r =>
      match settle_all r with
      | inl vs => inl (v :: vs)
      | inr err => inr err
      end
  | inr err :: _ => inr err
  end.

(** [await Promise.all(args.map(async arg => await arg.jsonValue()))] *)
Definition jsonValues (args : list (value + value)) : M (list value) :=
  match settle_all args with
  | inl vs => mret vs
  | inr err => throw err
  end.

(** [URI.file(path.resolve(p)).path]; [path.resolve] throws on a missing
    argument. *)
Definition file_uri_path (p : option string) : M string :=
  h ← ask;
  match p with
  | Some p => mret (URI_file_path h (path_resolve h p))
  | None => throw (VError "TypeError [ERR_INVALID_ARG_TYPE]: The path argument must be of type string")
  end.

(** [playwright[browserType].launch({ headless: true })] *)
Definition launch (browserType : string) : M unit :=
  if existsb (String.eqb browserType) ["chromium"; "firefox"; "webkit"]
  then call (Launch browserType true)
  else throw (VError "TypeError: Cannot read properties of undefined (reading 'launch')").

(** A promise: pending, fulfilled or rejected. Settling a settled promise
    does nothing. *)
Inductive promise (A : Type) :=
| Pending
| Fulfilled (a : A)
| Rejected (error : value).
Arguments Pending {A}.
Arguments Fulfilled {A} a.
Arguments Rejected {A} error.

Definition resolve {A} (p : promise A) (a : A) : promise A :=
  match p with
  | Pending => Fulfilled a
  | _ => p
  end.

(** The outcome of a program and the events it adds to the trace. *)
Definition outcome {A} (m : M A) (h : Host) (st : state) : result A := fst (m h st).

Definition events_of {A} (m : M A) (h : Host) (st : state) : list event :=
  drop (List.length (trace st)) (trace (snd (m h st))).

Definition cookies_after {A} (m : M A) (h : Host) (st : state) : list value :=
  cookie_jar (snd (m h st)).

Definition width : Z := 1200.
Definition height : Z := 800.
Definition protocol : string := "vscode-remote".

End Harness.

(** ** [src/src/index.ts], the refined variant *)

Module Src.
Import Js Node Harness.

Definition getAuthCookie : M value :=
  h ← ask;
  let authCookieStr :=
    match truthy_str (argv_authCookie (argv h)) with
    | Some flag => Some flag
    | None => env h !! "AUTH_COOKIE"
    end in
  match truthy_str authCookieStr with
  | Some authCookieStr =>
      let decodedCookie := base64_toString authCookieStr in
      match JSON_parse decodedCookie with
      | None => throw (VError "SyntaxError: Unexpected token in JSON")
      | Some authCookie =>
          expires ← get_prop authCookie "expires";
          let authCookie :=
            match expires with
            | VStr date =>
                set_prop authCookie "expires" (VNum (epoch_seconds (Date_getTime h date)))
            | _ => authCookie
            end in
          sameSite ← get_prop authCookie "sameSite";
          let authCookie :=
            match sameSite with
            | VStr text =>
                set_prop authCookie "sameSite"
                  (VStr (Str.toUpperCase (Str.charAt0 text) +:+ Str.slice1 text))
            | _ => authCookie
            end in
          mret authCookie
      end
  | None => mret VUndefined
  end.

(** The [pageerror], [crash], [response] and [requestfailed] listeners. *)
Definition on_pageerror (error : value) : M unit :=
  emit (Console "error" [VStr ("Playwright ERROR: page error: " +:+ to_display error)]).

Definition on_crash : M unit :=
  emit (Console "error" [VStr "Playwright ERROR: page crash"]).

Definition on_response (status : Z) (url : string) : M unit :=
  if 400 <=? status then
    emit (Console "error"
            [VStr ("Playwright ERROR: HTTP status " +:+ Str.of_Z status +:+ " for " +:+ url)])
  else mret tt.

Definition on_requestfailed (url : string) (errorText : value) : M unit :=
  emit (Console "error" [VStr "Request Failed"; VStr url; errorText]).

Definition consoleLogFn (msg : ConsoleMessage) : string :=
  let type := msg_type msg in
  if console_has type then type
  else if String.eqb type "warning" then "warn"
  else "log".

(** The function exposed as [codeAutomationLog]. *)
Definition codeAutomationLog (type : string) (args : list value) : M unit :=
  if console_has type then emit (Console type args)
  else throw (VError "TypeError: console[type] is not a function").

(** The [console] listener of the page. *)
Definition on_console (msg : ConsoleMessage) : M unit :=
  try_catch
    (if String.eqb (msg_type msg) "error" || String.eqb (msg_type msg) "warning" then
       let fn := consoleLogFn msg in
       args ← jsonValues (msg_args msg);
       emit (Console fn [VStr (msg_text msg); VArr args])
     else mret tt)
    (fun err => emit (Console "error" [VStr "Error logging console"; err])).

Definition quoted (text : string) : string := Str.dquote +:+ text +:+ Str.dquote.

Definition payloadParam (testExtensionUri testFilesUri : string) : string :=
  "[[" +:+ quoted "extensionDevelopmentPath" +:+ "," +:+ quoted testExtensionUri
  +:+ "],[" +:+ quoted "extensionTestsPath" +:+ "," +:+ quoted testFilesUri
  +:+ "],[" +:+ quoted "enableProposedApi" +:+ "," +:+ quoted ""
  +:+ "],[" +:+ quoted "skipWelcome" +:+ "," +:+ quoted "true" +:+ "]]".

(** The address the page is sent to, from the endpoint and the three
    file-URI paths. *)
Definition navigationUrl (endpoint : Url)
    (testWorkspacePath extensionDevelopmentPath extensionTestsPath : string) : string :=
  let host := Node.host endpoint in
  let testExtensionUri := url_format extensionDevelopmentPath protocol host in
  let testFilesUri := url_format extensionTestsPath protocol host in
  let payloadParam := payloadParam testExtensionUri testFilesUri in
  if String.eqb (extname testWorkspacePath) ".code-workspace" then
    href endpoint +:+ "&workspace=" +:+ testWorkspacePath +:+ "&payload=" +:+ payloadParam
  else
    href endpoint +:+ "&folder=" +:+ testWorkspacePath +:+ "&payload=" +:+ payloadParam.

(** The function exposed as [codeAutomationExit]; [server] is the handle
    the closure captured. *)
Definition codeAutomationExit (server : option ServerHandle) (code : Z) : M unit :=
  try_catch (call BrowserClose)
    (fun error =>
       emit (Console "error"
               [VStr ("Error when closing browser: " +:+ to_display error)])) ;;
  match server with
  | Some server =>
      try_catch (call (TreeKill (pid server)))
        (fun error =>
           emit (Console "error"
                   [VStr ("Error when killing server process tree (pid: "
                          +:+ Str.of_Z (pid server) +:+ "): " +:+ to_display error)]))
  | None => mret tt
  end ;;
  process_exit code.

Definition runTestsInBrowser (browserType : string) (endpoint : Url)
    (server : option ServerHandle) : M unit :=
  h ← ask;
  launch browserType ;;
  call NewContext ;;
  authCookie ← getAuthCookie;
  (if truthy authCookie then addCookies [authCookie] else mret tt) ;;
  call NewPage ;;
  call (SetViewportSize width height) ;;
  emit (PageOn "pageerror") ;;
  emit (PageOn "crash") ;;
  emit (PageOn "response") ;;
  emit (PageOn "console") ;;
  emit (PageOn "requestfailed") ;;
  testWorkspacePath ← file_uri_path (argv_workspacePath (argv h));
  extensionDevelopmentPath ← file_uri_path (argv_extensionDevelopmentPath (argv h));
  extensionTestsPath ← file_uri_path (argv_extensionTestsPath (argv h));
  call (Goto (navigationUrl endpoint testWorkspacePath extensionDevelopmentPath
                extensionTestsPath)) ;;
  call (ExposeFunction "codeAutomationLog") ;;
  call (ExposeFunction "codeAutomationExit").

(** The [data] listener of the child's standard output that settles the
    promise [launchServer] returns. *)
Definition on_data (serverProcess : ServerHandle)
    (p : promise (Url * ServerHandle)) (data : string) : promise (Url * ServerHandle) :=
  match match_prefix_dotplus "Web UI available at " (toString_ascii data) with
  | Some m1 => resolve p (url_parse m1, serverProcess)
  | None => p
  end.

(** [launchServer] up to the point where it returns its promise; a throw
    is the promise rejected. *)
Definition launchServer (browserType : string) : M ServerHandle :=
  h ← ask;
  match truthy_str (env h !! "VSCODE_REMOTE_SERVER_PATH") with
  | None => throw (VError "VSCODE_REMOTE_SERVER_PATH env variable not provided")
  | Some serverPath =>
      call (TmpDirSync "t") ;;
      let testDataPath := tmp_name h in
      process_on_exit (RemoveTestData testDataPath) ;;
      let userDataDir := path_join h [testDataPath; "d"] in
      let env' := env h ∪ {[ "VSCODE_BROWSER" := browserType ]} in
      let serverArgs :=
        ["--driver"; "web"; "--enable-proposed-api"; "--disable-telemetry";
         "--server-data-dir"; userDataDir] in
      let product := path_join h [serverPath; "product.json"] in
      call (Require product) ;;
      let serverLocation :=
        path_join h [serverPath; "bin";
                     serverApplicationName h product +:+ (if win32 h then ".cmd" else "")] in
      let stdio :=
        if argv_debug (argv h) then ["pipe"; "pipe"; "pipe"]
        else ["ignore"; "pipe"; "ignore"] in
      call (Spawn serverLocation serverArgs env' stdio) ;;
      let serverProcess := {| pid := spawn_pid h |} in
      (if argv_debug (argv h) then
         emit (StreamOn "stderr" "data") ;; emit (StreamOn "stdout" "data")
       else mret tt) ;;
      process_on_exit (KillOnExit serverProcess) ;;
      process_on_signal SIGINT (KillServerAndExit serverProcess (128 + 2)) ;;
      process_on_signal SIGTERM (KillServerAndExit serverProcess (128 + 15)) ;;
      emit (StreamOn "stdout" "data") ;;
      mret serverProcess
  end.

(** The debug listener of the child's standard output. *)
Fixpoint echo_stdout (chunks : list string) : M unit :=
  match chunks with
  | [] => mret tt
  | data :: r =>
      emit (Console "log" [VStr ("Server stdout: " +:+ data)]) ;; echo_stdout r
  end.

(** The module body: [stdout] is what the child, if one is spawned, writes
    to its standard output before the browser session starts. *)
Definition main (stdout : list string) : M unit :=
  h ← ask;
  if argv_help (argv h) then emit ShowHelp ;; process_exit 0
  else
    serverPromise ←
      match truthy_str (argv_endpoint (argv h)) with
      | Some endpoint => mret (Fulfilled (url_parse endpoint, None))
      | None =>
          try_catch
            (serverProcess ← launchServer (argv_browser (argv h));
             (if argv_debug (argv h) then echo_stdout stdout else mret tt) ;;
             mret (match fold_left (on_data serverProcess) stdout Pending with
                   | Fulfilled (endpoint, server) => Fulfilled (endpoint, Some server)
                   | Rejected e => Rejected e
                   | Pending => Pending
                   end))
            (fun error => mret (Rejected error))
      end;
    match serverPromise with
    | Fulfilled (endpoint, server) =>
        runTestsInBrowser (argv_browser (argv h)) endpoint server
    | Rejected error => emit (Console "error" [error]) ;; process_exit 1
    | Pending => mret tt
    end.

End Src.

(** ** [src/lib/index.ts], the earlier variant *)

Module Lib.
Import Js Node Harness.

(** The [pageerror], [crash], [response] and [requestfailed] listeners. *)
Definition on_pageerror (error : value) : M unit :=
  emit (Console "error" [VStr ("Playwright ERROR: page error: " +:+ to_display error)]).

Definition on_crash : M unit :=
  emit (Console "error" [VStr "Playwright ERROR: page crash"]).

Definition on_response (status : Z) (url : string) : M unit :=
  if 400 <=? status then
    emit (Console "error"
            [VStr ("Playwright ERROR: HTTP status " +:+ Str.of_Z status +:+ " for " +:+ url)])
  else mret tt.

Definition on_requestfailed (url : string) (errorText : value) : M unit :=
  emit (Console "error" [VStr "Request Failed"; VStr url; errorText]).

Definition consoleLogFn (msg : ConsoleMessage) : string :=
  let type := msg_type msg in
  if console_has type then type
  else if String.eqb type "warning" then "warn"
  else "log".

(** The function exposed as [codeAutomationLog]. *)
Definition codeAutomationLog (type : string) (args : list value) : M unit :=
  if console_has type then emit (Console type args)
  else throw (VError "TypeError: console[type] is not a function").

(** The [console] listener of the page. *)
Definition on_console (msg : ConsoleMessage) : M unit :=
  try_catch
    (let fn := consoleLogFn msg in
     args ← jsonValues (msg_args msg);
     emit (Console fn [VStr (msg_text msg); VArr args]))
    (fun err => emit (Console "error" [VStr "Error logging console"; err])).

Definition quoted (text : string) : string := Str.dquote +:+ text +:+ Str.dquote.

Definition payloadParam (testExtensionUri testFilesUri : string) : string :=
  "[[" +:+ quoted "extensionDevelopmentPath" +:+ "," +:+ quoted testExtensionUri
  +:+ "],[" +:+ quoted "extensionTestsPath" +:+ "," +:+ quoted testFilesUri
  +:+ "],[" +:+ quoted "enableProposedApi" +:+ "," +:+ quoted ""
  +:+ "],[" +:+ quoted "webviewExternalEndpointCommit" +:+ ","
  +:+ quoted "5f19eee5dc9588ca96192f89587b5878b7d7180d"
  +:+ "],[" +:+ quoted "skipWelcome" +:+ "," +:+ quoted "true" +:+ "]]".

Definition navigationUrl (endpoint : Url)
    (workspacePath extensionDevelopmentPath extensionTestsPath : string) : string :=
  let host := Node.host endpoint in
  let testWorkspaceUri := url_format workspacePath protocol host in
  let testExtensionUri := url_format extensionDevelopmentPath protocol host in
  let testFilesUri := url_format extensionTestsPath protocol host in
  let payloadParam := payloadParam testExtensionUri testFilesUri in
  if String.eqb (extname testWorkspaceUri) ".code-workspace" then
    href endpoint +:+ "?workspace=" +:+ testWorkspaceUri +:+ "&payload=" +:+ payloadParam
  else
    href endpoint +:+ "?folder=" +:+ testWorkspaceUri +:+ "&payload=" +:+ payloadParam.

(** [pkill(pid)]: the callback of [tree-kill] turned into a promise. *)
Definition pkill (pid : Z) : M unit := call (TreeKill pid).

Definition codeAutomationExit (server : option ServerHandle) (code : Z) : M unit :=
  try_catch (call BrowserClose)
    (fun error =>
       emit (Console "error"
               [VStr ("Error when closing browser: " +:+ to_display error)])) ;;
  match server with
  | Some server =>
      try_catch (pkill (pid server))
        (fun error =>
           emit (Console "error"
                   [VStr ("Error when killing server process tree: "
                          +:+ to_display error)]))
  | None => mret tt
  end ;;
  process_exit code.

Definition runTestsInBrowser (browserType : string) (endpoint : Url)
    (server : option ServerHandle) : M unit :=
  h ← ask;
  launch browserType ;;
  call NewContext ;;
  match truthy_str (env h !! "AUTH_COOKIE") with
  | Some text =>
      match JSON_parse text with
      | None => throw (VError "SyntaxError: Unexpected token in JSON")
      | Some authCookie =>
          expires ← get_prop authCookie "expires";
          let authCookie :=
            match expires with
            | VStr date =>
                set_prop authCookie "expires" (VNum (epoch_seconds (Date_getTime h date)))
            | _ => authCookie
            end in
          sameSite ← get_prop authCookie "sameSite";
          let authCookie :=
            match sameSite with
            | VStr text =>
                set_prop authCookie "sameSite"
                  (VStr (Str.toUpperCase (Str.charAt0 text) +:+ Str.slice1 text))
            | _ => authCookie
            end in
          addCookies [authCookie]
      end
  | None => mret tt
  end ;;
  call NewPage ;;
  call (SetViewportSize width height) ;;
  emit (PageOn "pageerror") ;;
  emit (PageOn "crash") ;;
  emit (PageOn "response") ;;
  emit (PageOn "console") ;;
  emit (PageOn "requestfailed") ;;
  workspacePath ← file_uri_path (argv_workspacePath (argv h));
  extensionDevelopmentPath ← file_uri_path (argv_extensionDevelopmentPath (argv h));
  extensionTestsPath ← file_uri_path (argv_extensionTestsPath (argv h));
  call (Goto (navigationUrl endpoint workspacePath extensionDevelopmentPath
                extensionTestsPath)) ;;
  call (ExposeFunction "codeAutomationLog") ;;
  call (ExposeFunction "codeAutomationExit").

Definition on_data (serverProcess : ServerHandle)
    (p : promise (Url * ServerHandle)) (data : string) : promise (Url * ServerHandle) :=
  match match_prefix_dotplus "Web UI available at " (toString_ascii data) with
  | Some m1 => resolve p (url_parse m1, serverProcess)
  | None => p
  end.

Definition launchServer (browserType : string) : M ServerHandle :=
  h ← ask;
  match truthy_str (env h !! "VSCODE_REMOTE_SERVER_PATH") with
  | None => throw (VError "VSCODE_REMOTE_SERVER_PATH env variable not provided")
  | Some serverPath =>
      call (TmpDirSync "t") ;;
      let testDataPath := tmp_name h in
      process_on_exit (RemoveTestData testDataPath) ;;
      let userDataDir := path_join h [testDataPath; "d"] in
      let env' :=
        env h ∪ ({[ "VSCODE_AGENT_FOLDER" := userDataDir ]}
                 ∪ {[ "VSCODE_BROWSER" := browserType ]}) in
      let serverArgs :=
        ["--browser"; "none"; "--driver"; "web"; "--enable-proposed-api";
         "--disable-telemetry"] in
      let serverLocation :=
        path_join h [serverPath; "server." +:+ (if win32 h then "cmd" else "sh")] in
      let stdio := ["ignore"; "pipe"; "ignore"] in
      call (Spawn serverLocation serverArgs env' stdio) ;;
      let serverProcess := {| pid := spawn_pid h |} in
      process_on_exit (KillOnExit serverProcess) ;;
      process_on_signal SIGINT (KillServer serverProcess) ;;
      process_on_signal SIGTERM (KillServer serverProcess) ;;
      emit (StreamOn "stdout" "data") ;;
      mret serverProcess
  end.

Definition main (stdout : list string) : M unit :=
  h ← ask;
  if argv_help (argv h) then emit ShowHelp ;; process_exit 0
  else
    serverPromise ←
      match truthy_str (argv_endpoint (argv h)) with
      | Some endpoint => mret (Fulfilled (url_parse endpoint, None))
      | None =>
          try_catch
            (serverProcess ← launchServer (argv_browser (argv h));
             mret (match fold_left (on_data serverProcess) stdout Pending with
                   | Fulfilled (endpoint, server) => Fulfilled (endpoint, Some server)
                   | Rejected e => Rejected e
                   | Pending => Pending
                   end))
            (fun error => mret (Rejected error))
      end;
    match serverPromise with
    | Fulfilled (endpoint, server) =>
        runTestsInBrowser (argv_browser (argv h)) endpoint server
    | Rejected error => emit (Console "error" [error]) ;; process_exit 1
    | Pending => mret tt
    end.

End Lib.

(** ** A concrete host

    A POSIX host on which the paths given are absolute and normalised, so
    that [path.resolve] and [URI.file(...).path] return them unchanged. *)

Module Posix.
Import Js Node Harness.

Fixpoint join (parts : list string) : string :=
  match parts with
  | [] => "."
  | [p] => p
  | p :: r => p +:+ "/" +:+ join r
  end.

Definition host (a : Argv) (e : gmap string string) (failing : event -> option value)
  : Host :=
  {| argv := a; env := e; win32 := false;
     path_resolve := fun p => p;
     path_join := join;
     URI_file_path := fun p => p;
     Date_getTime := iso_getTime;
     tmp_name := "/tmp/t-1";
     serverApplicationName := fun _ => "code-server";
     spawn_pid := 4242;
     fails := failing |}.

Definition no_failure : event -> option value := fun _ => None.

Definition server_env : gmap string string :=
  {[ "VSCODE_REMOTE_SERVER_PATH" := "/srv" ]}.

Definition endpoint0 : Url := url_parse "http://127.0.0.1:9999/".

Definition argv0 : Argv :=
  {| argv_help := false; argv_endpoint := None; argv_authCookie := None;
     argv_workspacePath := Some "/w/app";
     argv_extensionDevelopmentPath := Some "/w/ext";
     argv_extensionTestsPath := Some "/w/ext/out/test";
     argv_debug := false; argv_browser := "chromium" |}.

(** A cookie with a date string and a lower-case [sameSite], as JSON and
    as the base64 of that JSON. *)
Definition cookie_base64 : string :=
  "eyJuYW1lIjoiYSIsInZhbHVlIjoiYiIsImV4cGlyZXMiOiIyMDIxLTA1LTAxVDAwOjAwOjAwLjAwMFoiLCJzYW1lU2l0ZSI6ImxheCJ9".

Definition cookie_json : string := base64_toString cookie_base64.

Definition cookie_fields : list (string * value) :=
  [("name", VStr "a"); ("value", VStr "b");
   ("expires", VStr "2021-05-01T00:00:00.000Z"); ("sameSite", VStr "lax")].

Definition argv_cookie : Argv :=
  {| argv_help := false; argv_endpoint := None; argv_authCookie := Some cookie_base64;
     argv_workspacePath := Some "/w/app";
     argv_extensionDevelopmentPath := Some "/w/ext";
     argv_extensionTestsPath := Some "/w/ext/out/test";
     argv_debug := false; argv_browser := "chromium" |}.

Definition ready_line : string := "Web UI available at http://127.0.0.1:9999/".

Definition argv_attach : Argv :=
  {| argv_help := false; argv_endpoint := Some "http://127.0.0.1:9999/";
     argv_authCookie := None;
     argv_workspacePath := Some "/w/app";
     argv_extensionDevelopmentPath := Some "/w/ext";
     argv_extensionTestsPath := Some "/w/ext/out/test";
     argv_debug := false; argv_browser := "chromium" |}.

(** A host on which the server cannot be spawned. *)
Definition spawn_fails : event -> option value :=
  fun e => match e with
           | Spawn _ _ _ _ => Some (VError "spawn ENOENT")
           | _ => None
           end.

Definition argv_empty_flags : Argv :=
  {| argv_help := false; argv_endpoint := Some ""; argv_authCookie := Some "";
     argv_workspacePath := Some "/w/app";
     argv_extensionDevelopmentPath := Some "/w/ext";
     argv_extensionTestsPath := Some "/w/ext/out/test";
     argv_debug := false; argv_browser := "chromium" |}.

Definition empty_env : gmap string string :=
  {[ "VSCODE_REMOTE_SERVER_PATH" := "" ]} ∪ {[ "AUTH_COOKIE" := "" ]}.

(** The base64 of the JSON texts [null], [0] and [{"name":"a","expires":1}]. *)
Definition null_base64 : string := "bnVsbA==".



End Posix.

(** ** Vocabulary of the properties *)

Module Props.
Import Js Node Harness.

(** The characters that introduce a query parameter. *)
Definition is_query_delim (c : ascii) : bool := Ascii.eqb c "?" || Ascii.eqb c "&".


Definition key_of (parameter : string) : string :=
  Str.take_while (fun c => negb (Ascii.eqb c "=")) parameter.

(** The keys of the parameters of an address: of each piece after a [?]
    or [&], the text before its [=]. *)
Definition query_keys (url : string) : list string :=
  List.map key_of (List.tl (Str.split_on is_query_delim url)).


Definition has_question_mark (text : string) : bool :=
  negb (Str.forallb (fun c => negb (Ascii.eqb c "?")) text).


(** The text is empty or ends with a line terminator: what follows it
    starts a line. *)
Definition ends_line (text : string) : Prop :=
  text = EmptyString \/
  exists before c, text = before +:+ String c EmptyString /\ is_line_terminator c = true.

(** The text is empty or starts with a line terminator: what precedes it
    ends a line. *)
Definition starts_line (text : string) : Prop :=
  match text with
  | EmptyString => True
  | String c _ => is_line_terminator c = true
  end.

(** The steps of the teardown among the events. *)
Definition is_teardown_step (e : event) : bool :=
  match e with
  | BrowserClose | TreeKill _ | ProcessExit _ => true
  | _ => false
  end.

Definition is_spawn (e : event) : bool :=
  match e with Spawn _ _ _ _ => true | _ => false end.

Definition is_add_cookies (e : event) : bool :=
  match e with AddCookies _ => true | _ => false end.

(** The page listeners subscribed and the functions exposed, in order. *)
Fixpoint subscribed (evs : list event) : list string :=
  match evs with
  | [] => []
  | PageOn name :: r => name :: subscribed r
  | _ :: r => subscribed r
  end.

Fixpoint exposed (evs : list event) : list string :=
  match evs with
  | [] => []
  | ExposeFunction name :: r => name :: exposed r
  | _ :: r => exposed r
  end.

(** The events before the first navigation, its address, and the events
    after it; [None] when the page is never sent anywhere. *)
Fixpoint split_at_goto (evs : list event) : option (list event * string * list event) :=
  match evs with
  | [] => None
  | Goto url :: r => Some ([], url, r)
  | e :: r =>
      match split_at_goto r with
      | Some (before, url, after) => Some (e :: before, url, after)
      | None => None
      end
  end.

Definition subscriptions : list string :=
  ["pageerror"; "crash"; "response"; "console"; "requestfailed"].

Definition entry_points : list string := ["codeAutomationLog"; "codeAutomationExit"].

(** Everything in [names] is among [installed]. *)
Definition all_installed (names installed : list string) : bool :=
  List.forallb (fun n => existsb (String.eqb n) installed) names.

(** Navigation finds both entry points and every subscription
    installed. *)
Definition installed_before_navigation (evs : list event) : Prop :=
  match split_at_goto evs with
  | Some (before, _, _) =>
      all_installed subscriptions (subscribed before) = true /\
      all_installed entry_points (exposed before) = true
  | None => True
  end.

(** The order the code keeps: every subscription is installed before the
    page is sent to its address, and the entry points are exposed after the
    navigation has completed, the logging one first; a session that
    returns has exposed both. Without a navigation nothing is exposed. *)
Definition subscribed_then_navigated_then_exposed
    (r : result unit) (evs : list event) : Prop :=
  match split_at_goto evs with
  | Some (before, _, after) =>
      subscribed before = subscriptions /\ exposed before = [] /\
      subscribed after = [] /\ exposed after `prefix_of` entry_points /\
      match r with Ret _ => exposed after = entry_points | _ => True end
  | None => exposed evs = [] /\ match r with Ret _ => False | _ => True end
  end.

(** Events that neither subscribe, navigate nor expose. *)
Definition quiet_event (e : event) : bool :=
  match e with
  | Goto _ | PageOn _ | ExposeFunction _ => false
  | _ => true
  end.

(** A program that only adds quiet events to the trace. *)
Definition quiet {A} (m : M A) : Prop :=
  forall h st, exists evs,
    trace (snd (m h st)) = (trace st ++ evs)%list /\
    List.forallb quiet_event evs = true.

(** A program whose events keep the order above. *)
Definition order_kept (m : M unit) : Prop :=
  forall h st, exists evs,
    trace (snd (m h st)) = (trace st ++ evs)%list /\
    subscribed_then_navigated_then_exposed (fst (m h st)) evs.

(** The key the code gives the workspace parameter. *)
Definition workspace_key (workspacePath : string) : string :=
  if String.eqb (extname workspacePath) ".code-workspace" then "workspace" else "folder".

(** What a failed step leaves on the console. *)
Definition logged (failure : option value) (message : value -> string) : list event :=
  match failure with
  | Some error => [Console "error" [VStr (message error)]]
  | None => []
  end.

(** [s.charAt(0).toUpperCase() + s.slice(1)] spelled out. *)
Definition capitalized (s : string) : string :=
  match s with
  | EmptyString => EmptyString
  | String c r => String (Str.upper_char c) r
  end.

(** The cookie after the two assignments of the normalisation. *)
Definition normalized (getTime : string -> option Z) (fields : list (string * value))
    (date sameSite : string) : value :=
  VObj (set_field "sameSite" (VStr (capitalized sameSite))
          (set_field "expires" (VNum (epoch_seconds (getTime date))) fields)).

Definition cookie_field (k : string) (cookie : value) : value :=
  match cookie with
  | VObj fields => get_field k fields
  | _ => VUndefined
  end.


(** Events of the browser session. *)
Definition is_session_event (e : event) : bool :=
  match e with
  | Launch _ _ | NewContext | AddCookies _ | NewPage | SetViewportSize _ _
  | PageOn _ | Goto _ | ExposeFunction _ => true
  | _ => false
  end.


(** The process listeners are what they were. *)
Definition same_listeners (st st' : state) : Prop :=
  on_exit st' = on_exit st /\ on_SIGINT st' = on_SIGINT st /\
  on_SIGTERM st' = on_SIGTERM st.

(** A program that adds only events satisfying [p] to the trace, does not
    end the process and leaves the process listeners alone. *)
Definition confined {A} (p : event -> bool) (m : M A) : Prop :=
  forall h st, exists evs,
    trace (snd (m h st)) = (trace st ++ evs)%list /\
    List.forallb p evs = true /\
    (forall code, fst (m h st) <> Exit code) /\
    same_listeners st (snd (m h st)).

(** The events that end a run or remove what it created. *)
Definition is_cleanup_step (e : event) : bool :=
  match e with
  | BrowserClose | TreeKill _ | RimrafSync _ | ChildKill _ | ProcessExit _ => true
  | _ => false
  end.


(** Events of the launch of the server. *)
Definition is_launch_event (e : event) : bool :=
  match e with
  | TmpDirSync _ | Require _ | Spawn _ _ _ _ | StreamOn _ _ | ProcessOn _ => true
  | _ => false
  end.

(** What the debug listener prints for the chunks of standard output. *)
Definition echoed (chunks : list string) : list event :=
  List.map (fun data => Console "log" [VStr ("Server stdout: " +:+ data)]) chunks.




End Props.

(** * Properties *)

Import Js Node Harness Props.
Local Open Scope list_scope.

(** ** Reasoning about programs of the harness monad *)

Lemma events_of_intro {A} (m : M A) h st evs :
  trace (snd (m h st)) = trace st ++ evs -> events_of m h st = evs.
Proof. intros E. unfold events_of. rewrite E. apply drop_app_length. Qed.

Lemma filter_exit_listeners (p : event -> bool) (ls : list exit_listener) :
  (forall l, p (exit_listener_event l) = false) ->
  List.filter p (List.map exit_listener_event ls) = [].
Proof.
  intros Hp. induction ls as [|l ls IH]; simpl; [reflexivity|].
  rewrite Hp. exact IH.
Qed.

Ltac run_monad :=
  unfold outcome, events_of, cookies_after, mbind, M_bind, mret, M_ret,
    try_catch, call, emit, throw, process_exit, ask, addCookies, log_event;
  simpl.

(** ** The exit entry point *)

Lemma src_codeAutomationExit_run server N h st :
  Src.codeAutomationExit server N h st =
  (Exit N,
   {| trace := trace st ++
        ([BrowserClose]
         ++ logged (fails h BrowserClose)
              (fun error => "Error when closing browser: " +:+ to_display error)
         ++ match server with
            | Some s =>
                [TreeKill (pid s)]
                ++ logged (fails h (TreeKill (pid s)))
                     (fun error =>
                        "Error when killing server process tree (pid: "
                        +:+ Str.of_Z (pid s) +:+ "): " +:+ to_display error)
            | None => []
            end
         ++ List.map exit_listener_event (on_exit st) ++ [ProcessExit N]);
      cookie_jar := cookie_jar st; on_exit := on_exit st;
      on_SIGINT := on_SIGINT st; on_SIGTERM := on_SIGTERM st |}).
Proof.
  unfold Src.codeAutomationExit. run_monad.
  destruct (fails h BrowserClose); simpl; destruct server as [s|]; simpl;
    try destruct (fails h (TreeKill (pid s))); simpl;
    repeat rewrite <- app_assoc; simpl; reflexivity.
Qed.

Lemma lib_codeAutomationExit_run server N h st :
  Lib.codeAutomationExit server N h st =
  (Exit N,
   {| trace := trace st ++
        ([BrowserClose]
         ++ logged (fails h BrowserClose)
              (fun error => "Error when closing browser: " +:+ to_display error)
         ++ match server with
            | Some s =>
                [TreeKill (pid s)]
                ++ logged (fails h (TreeKill (pid s)))
                     (fun error =>
                        "Error when killing server process tree: " +:+ to_display error)
            | None => []
            end
         ++ List.map exit_listener_event (on_exit st) ++ [ProcessExit N]);
      cookie_jar := cookie_jar st; on_exit := on_exit st;
      on_SIGINT := on_SIGINT st; on_SIGTERM := on_SIGTERM st |}).
Proof.
  unfold Lib.codeAutomationExit, Lib.pkill. run_monad.
  destruct (fails h BrowserClose); simpl; destruct server as [s|]; simpl;
    try destruct (fails h (TreeKill (pid s))); simpl;
    repeat rewrite <- app_assoc; simpl; reflexivity.
Qed.

Lemma teardown_steps_of_run (failed_close : list event)
    (failed_kill : ServerHandle -> list event)
    (server : option ServerHandle) (ls : list exit_listener) (N : Z) :
  List.filter is_teardown_step failed_close = [] ->
  (forall s, List.filter is_teardown_step (failed_kill s) = []) ->
  List.filter is_teardown_step
    ([BrowserClose] ++ failed_close
     ++ match server with
        | Some s => [TreeKill (pid s)] ++ failed_kill s
        | None => []
        end
     ++ List.map exit_listener_event ls ++ [ProcessExit N])
  = BrowserClose
      :: match server with Some s => [TreeKill (pid s)] | None => [] end
      ++ [ProcessExit N].
Proof.
  intros Hc Hk.
  rewrite !List.filter_app, Hc.
  rewrite (filter_exit_listeners is_teardown_step ls) by (intros []; reflexivity).
  destruct server as [s|]; simpl; [|reflexivity].
  rewrite (Hk s). reflexivity.
Qed.

Lemma logged_no_teardown failure message :
  List.filter is_teardown_step (logged failure message) = [].
Proof. destruct failure; reflexivity. Qed.

(** C1. In both variants, calling the exit entry point with code [N]
    attempts to close the browser, then, when there is a server handle,
    attempts to kill the server's process tree, then ends the process with
    code [N], whatever fails on the way: a failed step is reported on the
    console, the program never throws, and the code stays [N]. *)
Theorem codeAutomationExit_teardown (server : option ServerHandle) (N : Z)
    (h : Host) (st : state) :
  let steps :=
    BrowserClose
      :: match server with Some s => [TreeKill (pid s)] | None => [] end
      ++ [ProcessExit N] in
  (outcome (Src.codeAutomationExit server N) h st = Exit N /\
   List.filter is_teardown_step (events_of (Src.codeAutomationExit server N) h st) = steps /\
   events_of (Src.codeAutomationExit server N) h st =
     [BrowserClose]
     ++ logged (fails h BrowserClose)
          (fun error => "Error when closing browser: " +:+ to_display error)
     ++ match server with
        | Some s =>
            [TreeKill (pid s)]
            ++ logged (fails h (TreeKill (pid s)))
                 (fun error =>
                    "Error when killing server process tree (pid: "
                    +:+ Str.of_Z (pid s) +:+ "): " +:+ to_display error)
        | None => []
        end
     ++ List.map exit_listener_event (on_exit st) ++ [ProcessExit N]) /\
  (outcome (Lib.codeAutomationExit server N) h st = Exit N /\
   List.filter is_teardown_step (events_of (Lib.codeAutomationExit server N) h st) = steps /\
   events_of (Lib.codeAutomationExit server N) h st =
     [BrowserClose]
     ++ logged (fails h BrowserClose)
          (fun error => "Error when closing browser: " +:+ to_display error)
     ++ match server with
        | Some s =>
            [TreeKill (pid s)]
            ++ logged (fails h (TreeKill (pid s)))
                 (fun error =>
                    "Error when killing server process tree: " +:+ to_display error)
        | None => []
        end
     ++ List.map exit_listener_event (on_exit st) ++ [ProcessExit N]).
Proof.
  intros steps. split.
  - assert (E := src_codeAutomationExit_run server N h st).
    split; [unfold outcome; rewrite E; reflexivity|].
    rewrite (events_of_intro _ h st _ (f_equal (fun r => trace (snd r)) E)).
    split; [|reflexivity].
    apply (teardown_steps_of_run _
             (fun s => logged (fails h (TreeKill (pid s))) _));
      intros; apply logged_no_teardown.
  - assert (E := lib_codeAutomationExit_run server N h st).
    split; [unfold outcome; rewrite E; reflexivity|].
    rewrite (events_of_intro _ h st _ (f_equal (fun r => trace (snd r)) E)).
    split; [|reflexivity].
    apply (teardown_steps_of_run _
             (fun s => logged (fails h (TreeKill (pid s))) _));
      intros; apply logged_no_teardown.
Qed.

(** ** Signals *)

Lemma src_launchServer_listeners browserType h st server st' :
  Src.launchServer browserType h st = (Ret server, st') ->
  server = {| pid := spawn_pid h |} /\
  on_exit st' = on_exit st ++ [RemoveTestData (tmp_name h); KillOnExit server] /\
  on_SIGINT st' = on_SIGINT st ++ [KillServerAndExit server 130] /\
  on_SIGTERM st' = on_SIGTERM st ++ [KillServerAndExit server 143].
Proof.
  unfold Src.launchServer. run_monad.
  destruct (truthy_str (env h !! "VSCODE_REMOTE_SERVER_PATH")); [|discriminate].
  run_monad.
  destruct (fails h (TmpDirSync "t")); [discriminate|]. simpl.
  destruct (fails h (Require _)); [discriminate|]. simpl.
  destruct (fails h (Spawn _ _ _ _)); [discriminate|]. simpl.
  destruct (argv_debug (argv h)); simpl; intros E; inversion E; subst; simpl;
    rewrite <- ?app_assoc; repeat split; reflexivity.
Qed.

Lemma lib_launchServer_listeners browserType h st server st' :
  Lib.launchServer browserType h st = (Ret server, st') ->
  server = {| pid := spawn_pid h |} /\
  on_exit st' = on_exit st ++ [RemoveTestData (tmp_name h); KillOnExit server] /\
  on_SIGINT st' = on_SIGINT st ++ [KillServer server] /\
  on_SIGTERM st' = on_SIGTERM st ++ [KillServer server].
Proof.
  unfold Lib.launchServer. run_monad.
  destruct (truthy_str (env h !! "VSCODE_REMOTE_SERVER_PATH")); [|discriminate].
  run_monad.
  destruct (fails h (TmpDirSync "t")); [discriminate|]. simpl.
  destruct (fails h (Spawn _ _ _ _)); [discriminate|]. simpl.
  intros E; inversion E; subst; simpl;
    rewrite <- ?app_assoc; repeat split; reflexivity.
Qed.

(** In the refined variant, a signal delivered after the server was
    launched kills the child and ends the process with [128 + signo]:
    130 for SIGINT and 143 for SIGTERM. *)
Theorem src_signal_exit_code (s : signal) browserType h st server st' :
  Src.launchServer browserType h st = (Ret server, st') ->
  on_SIGINT st = [] -> on_SIGTERM st = [] ->
  outcome (deliver s) h st' = Exit (match s with SIGINT => 130 | SIGTERM => 143 end) /\
  events_of (deliver s) h st' =
    [ChildKill (pid server)] ++ List.map exit_listener_event (on_exit st')
    ++ [ProcessExit (match s with SIGINT => 130 | SIGTERM => 143 end)].
Proof.
  intros L Hi Ht.
  destruct (src_launchServer_listeners _ _ _ _ _ L) as (_ & _ & Ei & Et).
  rewrite Hi in Ei. rewrite Ht in Et. simpl in Ei, Et.
  unfold outcome, events_of, deliver.
  destruct s; [rewrite Ei|rewrite Et]; run_monad;
    (split; [reflexivity|]);
    rewrite <- app_assoc; apply drop_app_length.
Qed.

(** C2. In the earlier variant the listeners of SIGINT and SIGTERM only
    kill the child: once the server is launched, delivery of either signal
    produces the kill and nothing else, and the process goes on running
    (no exit with 130 or 143). *)
Theorem lib_signal_kills_without_exit (s : signal) browserType h st server st' :
  Lib.launchServer browserType h st = (Ret server, st') ->
  on_SIGINT st = [] -> on_SIGTERM st = [] ->
  outcome (deliver s) h st' = Ret tt /\
  events_of (deliver s) h st' = [ChildKill (pid server)].
Proof.
  intros L Hi Ht.
  destruct (lib_launchServer_listeners _ _ _ _ _ L) as (_ & _ & Ei & Et).
  rewrite Hi in Ei. rewrite Ht in Et. simpl in Ei, Et.
  unfold outcome, events_of, deliver.
  destruct s; [rewrite Ei|rewrite Et]; run_monad;
    (split; [reflexivity|]); apply drop_app_length.
Qed.

Lemma lib_signal_kills_without_exit_witness :
  outcome (deliver SIGINT) (Posix.host Posix.argv0 Posix.server_env Posix.no_failure)
    (snd (Lib.launchServer "chromium"
            (Posix.host Posix.argv0 Posix.server_env Posix.no_failure) initial))
  = Ret tt /\
  events_of (deliver SIGINT) (Posix.host Posix.argv0 Posix.server_env Posix.no_failure)
    (snd (Lib.launchServer "chromium"
            (Posix.host Posix.argv0 Posix.server_env Posix.no_failure) initial))
  = [ChildKill 4242].
Proof.
  apply (lib_signal_kills_without_exit SIGINT "chromium" _ initial {| pid := 4242 |});
    [vm_compute; reflexivity | reflexivity | reflexivity].
Defined.

Lemma src_signal_exit_code_witness :
  outcome (deliver SIGTERM) (Posix.host Posix.argv0 Posix.server_env Posix.no_failure)
    (snd (Src.launchServer "chromium"
            (Posix.host Posix.argv0 Posix.server_env Posix.no_failure) initial))
  = Exit 143.
Proof.
  apply (src_signal_exit_code SIGTERM "chromium" _ initial {| pid := 4242 |});
    [vm_compute; reflexivity | reflexivity | reflexivity].
Defined.

(** ** Order of subscriptions, navigation and entry points *)

Lemma split_at_goto_app evs before url after :
  split_at_goto evs = Some (before, url, after) ->
  evs = before ++ Goto url :: after /\ split_at_goto before = None.
Proof.
  revert before. induction evs as [|e evs IH]; intros before; simpl; [discriminate|].
  destruct e;
    try (destruct (split_at_goto evs) as [[[b u] a]|]; [|discriminate];
         intros E; inversion E; subst;
         destruct (IH _ eq_refl) as [-> Hb]; simpl; rewrite Hb; split; reflexivity).
  intros E; inversion E; subst. split; reflexivity.
Qed.

Lemma quiet_ret {A} (a : A) : quiet (mret a).
Proof. intros h st. exists []. rewrite app_nil_r. split; reflexivity. Qed.

Lemma quiet_ask : quiet ask.
Proof. intros h st. exists []. rewrite app_nil_r. split; reflexivity. Qed.

Lemma quiet_throw {A} (e : value) : quiet (@throw A e).
Proof. intros h st. exists []. rewrite app_nil_r. split; reflexivity. Qed.

Lemma quiet_call (e : event) : quiet_event e = true -> quiet (call e).
Proof.
  intros He h st. exists [e]. unfold call.
  destruct (fails h e); simpl; rewrite He; split; reflexivity.
Qed.

Lemma quiet_addCookies (cookies : list value) : quiet (addCookies cookies).
Proof.
  intros h st. exists [AddCookies cookies]. unfold addCookies.
  destruct (fails h _); simpl; split; reflexivity.
Qed.

Lemma quiet_bind {A B} (m : M A) (k : A -> M B) :
  quiet m -> (forall a, quiet (k a)) -> quiet (m ≫= k).
Proof.
  intros Hm Hk h st. unfold mbind, M_bind.
  destruct (Hm h st) as (evs & E & Q).
  destruct (m h st) as [[a|e|c] st1]; simpl in *;
    try (exists evs; split; assumption).
  destruct (Hk a h st1) as (evs' & E' & Q').
  exists (evs ++ evs'). rewrite E', E, app_assoc. split; [reflexivity|].
  rewrite forallb_app, Q, Q'. reflexivity.
Qed.

Lemma quiet_get_prop v k : quiet (get_prop v k).
Proof. destruct v; simpl; auto using quiet_ret, quiet_throw. Qed.

Lemma quiet_launch browserType : quiet (launch browserType).
Proof.
  unfold launch. destruct (existsb _ _); [apply quiet_call; reflexivity|].
  apply quiet_throw.
Qed.

Lemma quiet_file_uri_path p : quiet (file_uri_path p).
Proof.
  unfold file_uri_path. apply quiet_bind; [apply quiet_ask|].
  intros h. destruct p; auto using quiet_ret, quiet_throw.
Qed.

Lemma quiet_getAuthCookie : quiet Src.getAuthCookie.
Proof.
  unfold Src.getAuthCookie. apply quiet_bind; [apply quiet_ask|]. intros h.
  destruct (truthy_str _); [|apply quiet_ret].
  destruct (JSON_parse _); [|apply quiet_throw].
  apply quiet_bind; [apply quiet_get_prop|]. intros expires.
  apply quiet_bind; [apply quiet_get_prop|]. intros sameSite.
  apply quiet_ret.
Qed.

Lemma quiet_no_goto (q : list event) :
  List.forallb quiet_event q = true ->
  split_at_goto q = None /\ subscribed q = [] /\ exposed q = [].
Proof.
  induction q as [|e q IH]; simpl; [auto|].
  intros H. apply andb_true_iff in H as [He Hq].
  destruct (IH Hq) as (-> & -> & ->).
  destruct e; try discriminate He; auto.
Qed.

Lemma quiet_prefix (q evs : list event) :
  List.forallb quiet_event q = true ->
  split_at_goto (q ++ evs) =
    match split_at_goto evs with
    | Some (before, url, after) => Some (q ++ before, url, after)
    | None => None
    end /\
  subscribed (q ++ evs) = subscribed evs /\ exposed (q ++ evs) = exposed evs.
Proof.
  induction q as [|e q IH]; simpl.
  - intros _. destruct (split_at_goto evs) as [[[b u] a]|]; auto.
  - intros H. apply andb_true_iff in H as [He Hq].
    destruct (IH Hq) as (-> & -> & ->).
    destruct e; try discriminate He;
      destruct (split_at_goto evs) as [[[b u] a]|]; auto.
Qed.

Lemma order_bind {A} (m : M A) (k : A -> M unit) :
  quiet m -> (forall a, order_kept (k a)) -> order_kept (m ≫= k).
Proof.
  intros Hm Hk h st. unfold mbind, M_bind.
  destruct (Hm h st) as (evs & E & Q).
  destruct (quiet_no_goto evs Q) as (Hg & _ & Hx).
  destruct (m h st) as [[a|e|c] st1]; simpl in *.
  - destruct (Hk a h st1) as (evs' & E' & O).
    exists (evs ++ evs'). rewrite E', E, app_assoc. split; [reflexivity|].
    unfold subscribed_then_navigated_then_exposed in *.
    destruct (quiet_prefix evs evs' Q) as (-> & _ & ->).
    destruct (split_at_goto evs') as [[[b u] a']|]; [|exact O].
    destruct (quiet_prefix evs b Q) as (_ & -> & ->). exact O.
  - exists evs. split; [exact E|].
    unfold subscribed_then_navigated_then_exposed. rewrite Hg, Hx. auto.
  - exists evs. split; [exact E|].
    unfold subscribed_then_navigated_then_exposed. rewrite Hg, Hx. auto.
Qed.

Lemma prefix_of_entry_points_1 : ["codeAutomationLog"] `prefix_of` entry_points.
Proof. exists ["codeAutomationExit"]. reflexivity. Qed.

Ltac red_state :=
  cbv beta iota zeta
    delta [trace cookie_jar on_exit on_SIGINT on_SIGTERM fst snd log_event].

(** Split the goal along the calls that may fail and the arguments that
    may be missing. *)
Ltac split_paths :=
  repeat (red_state;
          match goal with
          | |- context [match fails ?h ?e with _ => _ end] => destruct (fails h e)
          | |- context [match argv_workspacePath ?a with _ => _ end] =>
              destruct (argv_workspacePath a)
          | |- context [match argv_extensionDevelopmentPath ?a with _ => _ end] =>
              destruct (argv_extensionDevelopmentPath a)
          | |- context [match argv_extensionTestsPath ?a with _ => _ end] =>
              destruct (argv_extensionTestsPath a)
          end).

(** The session from the creation of the page on, path by path. *)
Ltac page_paths :=
  let h := fresh "h" in
  let st := fresh "st" in
  intros h st; unfold file_uri_path; run_monad; split_paths;
  (eexists; split; [rewrite <- ?app_assoc; reflexivity|]);
  unfold subscribed_then_navigated_then_exposed; simpl;
  repeat split; auto using prefix_nil, prefix_of_entry_points_1.

Lemma src_navigation_order browserType endpoint server :
  order_kept (Src.runTestsInBrowser browserType endpoint server).
Proof.
  unfold Src.runTestsInBrowser.
  apply order_bind; [apply quiet_ask|]. intros h.
  apply order_bind; [apply quiet_launch|]. intros _.
  apply order_bind; [apply quiet_call; reflexivity|]. intros _.
  apply order_bind; [apply quiet_getAuthCookie|]. intros authCookie.
  apply order_bind;
    [destruct (truthy authCookie); [apply quiet_addCookies | apply quiet_ret]|].
  intros _. page_paths.
Qed.

Lemma lib_navigation_order browserType endpoint server :
  order_kept (Lib.runTestsInBrowser browserType endpoint server).
Proof.
  unfold Lib.runTestsInBrowser.
  apply order_bind; [apply quiet_ask|]. intros h.
  apply order_bind; [apply quiet_launch|]. intros _.
  apply order_bind; [apply quiet_call; reflexivity|]. intros _.
  apply order_bind.
  { destruct (truthy_str _); [|apply quiet_ret].
    destruct (JSON_parse _); [|apply quiet_throw].
    apply quiet_bind; [apply quiet_get_prop|]. intros expires.
    apply quiet_bind; [apply quiet_get_prop|]. intros sameSite.
    apply quiet_addCookies. }
  intros _. page_paths.
Qed.

Lemma order_kept_events (m : M unit) h st :
  order_kept m ->
  subscribed_then_navigated_then_exposed (outcome m h st) (events_of m h st).
Proof.
  intros H. destruct (H h st) as (evs & E & O).
  rewrite (events_of_intro m h st evs E). exact O.
Qed.

(** C3, as the code has it. In both variants and in every run of the
    session, whatever fails: all five subscriptions of the Diagnostics
    Relay are installed before the page is sent to the constructed address,
    no entry point of the Bridge is exposed before that navigation, and
    after it has completed the logging entry point and then the exit entry
    point are exposed (both of them when the session setup returns). *)
Theorem subscriptions_before_navigation_entry_points_after
    browserType endpoint server h st :
  subscribed_then_navigated_then_exposed
    (outcome (Src.runTestsInBrowser browserType endpoint server) h st)
    (events_of (Src.runTestsInBrowser browserType endpoint server) h st) /\
  subscribed_then_navigated_then_exposed
    (outcome (Lib.runTestsInBrowser browserType endpoint server) h st)
    (events_of (Lib.runTestsInBrowser browserType endpoint server) h st).
Proof.
  split; apply order_kept_events;
    [apply src_navigation_order | apply lib_navigation_order].
Qed.

(** C3, as stated, fails: in a run of the refined variant in which every
    call succeeds, the page is sent to its address while neither entry
    point is exposed; the same holds for the earlier variant. *)
Lemma entry_points_not_installed_before_navigation :
  ~ installed_before_navigation
      (events_of (Src.runTestsInBrowser "chromium" Posix.endpoint0 None)
         (Posix.host Posix.argv0 ∅ Posix.no_failure) initial) /\
  ~ installed_before_navigation
      (events_of (Lib.runTestsInBrowser "chromium" Posix.endpoint0 None)
         (Posix.host Posix.argv0 ∅ Posix.no_failure) initial).
Proof.
  split; intros H; vm_compute in H; destruct H as [_ H]; discriminate H.
Qed.

(** ** Launching without a server path *)

Lemma main_without_server_path_events (ls : list exit_listener) :
  List.filter is_spawn
    ([Console "error" [VError "VSCODE_REMOTE_SERVER_PATH env variable not provided"]]
     ++ List.map exit_listener_event ls ++ [ProcessExit 1]) = [].
Proof.
  simpl. rewrite List.filter_app.
  rewrite (filter_exit_listeners is_spawn ls) by (intros []; reflexivity).
  reflexivity.
Qed.

(** C4. In both variants, when [VSCODE_REMOTE_SERVER_PATH] is unset and no
    endpoint flag is given, the run reports the configuration error
    [VSCODE_REMOTE_SERVER_PATH env variable not provided] on the console
    and ends the process with code 1, and no child process is spawned. *)
Theorem missing_server_path_exits_1 (stdout : list string) (h : Host) (st : state) :
  argv_help (argv h) = false ->
  argv_endpoint (argv h) = None ->
  env h !! "VSCODE_REMOTE_SERVER_PATH" = None ->
  let report :=
    [Console "error" [VError "VSCODE_REMOTE_SERVER_PATH env variable not provided"]]
    ++ List.map exit_listener_event (on_exit st) ++ [ProcessExit 1] in
  (outcome (Src.main stdout) h st = Exit 1 /\
   events_of (Src.main stdout) h st = report /\
   List.filter is_spawn (events_of (Src.main stdout) h st) = []) /\
  (outcome (Lib.main stdout) h st = Exit 1 /\
   events_of (Lib.main stdout) h st = report /\
   List.filter is_spawn (events_of (Lib.main stdout) h st) = []).
Proof.
  intros Hhelp Hend Henv report.
  assert (Es : Src.main stdout h st =
               (Exit 1,
                {| trace := trace st ++ report; cookie_jar := cookie_jar st;
                   on_exit := on_exit st; on_SIGINT := on_SIGINT st;
                   on_SIGTERM := on_SIGTERM st |})).
  { unfold Src.main, Src.launchServer. run_monad.
    rewrite Hhelp, Hend. simpl. rewrite Henv. simpl.
    rewrite <- app_assoc. reflexivity. }
  assert (El : Lib.main stdout h st =
               (Exit 1,
                {| trace := trace st ++ report; cookie_jar := cookie_jar st;
                   on_exit := on_exit st; on_SIGINT := on_SIGINT st;
                   on_SIGTERM := on_SIGTERM st |})).
  { unfold Lib.main, Lib.launchServer. run_monad.
    rewrite Hhelp, Hend. simpl. rewrite Henv. simpl.
    rewrite <- app_assoc. reflexivity. }
  split.
  - rewrite (events_of_intro _ h st _ (f_equal (fun r => trace (snd r)) Es)).
    unfold outcome. rewrite Es.
    repeat split. apply main_without_server_path_events.
  - rewrite (events_of_intro _ h st _ (f_equal (fun r => trace (snd r)) El)).
    unfold outcome. rewrite El.
    repeat split. apply main_without_server_path_events.
Qed.

Lemma missing_server_path_exits_1_witness :
  outcome (Src.main []) (Posix.host Posix.argv0 ∅ Posix.no_failure) initial = Exit 1 /\
  outcome (Lib.main []) (Posix.host Posix.argv0 ∅ Posix.no_failure) initial = Exit 1.
Proof.
  assert (Henv : env (Posix.host Posix.argv0 ∅ Posix.no_failure)
                   !! "VSCODE_REMOTE_SERVER_PATH" = None)
    by (vm_compute; reflexivity).
  destruct (missing_server_path_exits_1 []
              (Posix.host Posix.argv0 ∅ Posix.no_failure) initial
              eq_refl eq_refl Henv) as [[Hs _] [Hl _]].
  split; [exact Hs | exact Hl].
Defined.

(** ** Strings *)

Lemma sapp_cons c s t : String c s +:+ t = String c (s +:+ t).
Proof. reflexivity. Qed.

Lemma sapp_nil_r s : s +:+ "" = s.
Proof. induction s as [|c s IH]; [reflexivity|]. rewrite sapp_cons, IH. reflexivity. Qed.

Lemma sapp_assoc s t u : (s +:+ t) +:+ u = s +:+ t +:+ u.
Proof. induction s as [|c s IH]; [reflexivity|]. rewrite !sapp_cons, IH. reflexivity. Qed.

Lemma forallb_sapp p s t :
  Str.forallb p (s +:+ t) = Str.forallb p s && Str.forallb p t.
Proof.
  induction s as [|c s IH]; [reflexivity|].
  rewrite sapp_cons. simpl. rewrite IH, andb_assoc. reflexivity.
Qed.

Lemma take_while_stop p s c t :
  p c = false -> Str.take_while p (s +:+ String c t) = Str.take_while p s.
Proof.
  intros Hc. induction s as [|x s IH].
  - change ("" +:+ String c t) with (String c t). simpl. rewrite Hc. reflexivity.
  - rewrite sapp_cons. simpl. rewrite IH. reflexivity.
Qed.

Lemma take_while_all p s : Str.forallb p s = true -> Str.take_while p s = s.
Proof.
  induction s as [|c s IH]; simpl; [reflexivity|].
  intros H. apply andb_true_iff in H as [-> Hs]. rewrite (IH Hs). reflexivity.
Qed.

Lemma drop_sapp n s t :
  (n <= String.length s)%nat -> Str.drop n (s +:+ t) = Str.drop n s +:+ t.
Proof.
  revert s. induction n as [|n IH]; intros s Hn; [reflexivity|].
  destruct s as [|c s]; simpl in Hn; [lia|].
  rewrite sapp_cons. simpl. apply IH. lia.
Qed.

Lemma prefix_length pre s : String.prefix pre s = true -> (String.length pre <= String.length s)%nat.
Proof.
  revert s. induction pre as [|p pre IH]; intros s; simpl; [lia|].
  destruct s as [|c s]; simpl; [discriminate|].
  destruct (ascii_dec p c); [|discriminate]. intros H. apply IH in H. lia.
Qed.

(** ** The readiness line *)

Lemma prefix_before_terminator pre a c rest :
  pre <> "" ->
  Str.forallb (fun x => negb (is_line_terminator x)) pre = true ->
  is_line_terminator c = true ->
  String.prefix pre (a +:+ String c rest) = String.prefix pre a.
Proof.
  intros Hne Hpre Hc. revert a.
  induction pre as [|p pre IH]; [contradiction|]. intros a.
  simpl in Hpre. apply andb_true_iff in Hpre as [Hp Hpre].
  destruct a as [|x a].
  - change ("" +:+ String c rest) with (String c rest). simpl.
    destruct (ascii_dec p c) as [->|]; [|reflexivity].
    rewrite Hc in Hp. discriminate.
  - rewrite sapp_cons. simpl. destruct (ascii_dec p x); [|reflexivity].
    destruct pre as [|q pre]; [destruct a; reflexivity|].
    apply IH; [discriminate | exact Hpre].
Qed.

Lemma match_here_before_terminator pre a c rest :
  pre <> "" ->
  Str.forallb (fun x => negb (is_line_terminator x)) pre = true ->
  is_line_terminator c = true ->
  match_here pre (a +:+ String c rest) = match_here pre a.
Proof.
  intros Hne Hpre Hc. unfold match_here.
  rewrite (prefix_before_terminator pre a c rest Hne Hpre Hc).
  destruct (String.prefix pre a) eqn:P; [|reflexivity].
  rewrite drop_sapp by (apply prefix_length; exact P).
  rewrite take_while_stop by (rewrite Hc; reflexivity).
  reflexivity.
Qed.

Lemma match_prefix_dotplus_eq pre text :
  match_prefix_dotplus pre text =
  match match_here pre text with
  | Some group => Some group
  | None =>
      match text with
      | EmptyString => None
      | String _ r => match_prefix_dotplus pre r
      end
  end.
Proof. destruct text; reflexivity. Qed.

Lemma match_before_terminator pre a c rest :
  pre <> "" ->
  Str.forallb (fun x => negb (is_line_terminator x)) pre = true ->
  is_line_terminator c = true ->
  match_prefix_dotplus pre (a +:+ String c rest) =
  match match_prefix_dotplus pre a with
  | Some group => Some group
  | None => match_prefix_dotplus pre rest
  end.
Proof.
  intros Hne Hpre Hc. induction a as [|x a IH].
  - change ("" +:+ String c rest) with (String c rest).
    rewrite (match_prefix_dotplus_eq pre (String c rest)).
    rewrite (match_prefix_dotplus_eq pre "").
    pose proof (match_here_before_terminator pre "" c rest Hne Hpre Hc) as E.
    change ("" +:+ String c rest) with (String c rest) in E. rewrite E.
    destruct (match_here pre "") eqn:H0; [|reflexivity].
    unfold match_here in H0. destruct pre; [contradiction|discriminate].
  - rewrite sapp_cons.
    rewrite (match_prefix_dotplus_eq pre (String x (a +:+ String c rest))).
    rewrite (match_prefix_dotplus_eq pre (String x a)).
    pose proof (match_here_before_terminator pre (String x a) c rest Hne Hpre Hc) as E.
    rewrite sapp_cons in E. rewrite E.
    destruct (match_here pre (String x a)); [reflexivity|]. exact IH.
Qed.

Lemma ready_line_match a b :
  ends_line a -> starts_line b ->
  match_prefix_dotplus "Web UI available at " a = None ->
  match_prefix_dotplus "Web UI available at " (a +:+ Posix.ready_line +:+ b)
  = Some "http://127.0.0.1:9999/".
Proof.
  intros Ha Hb Hnone.
  assert (Hline : match_prefix_dotplus "Web UI available at " (Posix.ready_line +:+ b)
                  = Some "http://127.0.0.1:9999/").
  { rewrite match_prefix_dotplus_eq. unfold match_here, Posix.ready_line.
    destruct b as [|c b].
    - reflexivity.
    - simpl in Hb.
      change (String.prefix "Web UI available at "
                ("Web UI available at http://127.0.0.1:9999/" +:+ String c b)) with true.
      cbv iota.
      change (Str.drop (String.length "Web UI available at ")
                ("Web UI available at http://127.0.0.1:9999/" +:+ String c b))
        with ("http://127.0.0.1:9999/" +:+ String c b).
      rewrite take_while_stop by (rewrite Hb; reflexivity).
      reflexivity. }
  destruct Ha as [->|(before & c & -> & Hc)]; [exact Hline|].
  rewrite sapp_assoc, sapp_cons.
  change ("" +:+ Posix.ready_line +:+ b) with (Posix.ready_line +:+ b).
  rewrite match_before_terminator; [|discriminate|reflexivity|exact Hc].
  rewrite (match_before_terminator _ before c "") in Hnone;
    [|discriminate|reflexivity|exact Hc].
  destruct (match_prefix_dotplus "Web UI available at " before); [discriminate|].
  exact Hline.
Qed.

Lemma on_data_settled_src sp chunks x :
  fold_left (Src.on_data sp) chunks (Fulfilled x) = Fulfilled x.
Proof.
  induction chunks as [|c chunks IH]; [reflexivity|]. simpl.
  unfold Src.on_data at 2. destruct (match_prefix_dotplus _ _); exact IH.
Qed.

Lemma on_data_settled_lib sp chunks x :
  fold_left (Lib.on_data sp) chunks (Fulfilled x) = Fulfilled x.
Proof.
  induction chunks as [|c chunks IH]; [reflexivity|]. simpl.
  unfold Lib.on_data at 2. destruct (match_prefix_dotplus _ _); exact IH.
Qed.

(** C6. In both variants, when the first chunk of the child's standard
    output that matches contains the line
    [Web UI available at http://127.0.0.1:9999/], the promise of the
    Supervisor is fulfilled with the endpoint parsed from
    [http://127.0.0.1:9999/], whose host is [127.0.0.1:9999], together with
    the process handle, and the chunks that follow do not change it. *)
Theorem ready_line_resolves_endpoint (serverProcess : ServerHandle)
    (earlier later : list string) (chunk a b : string) :
  fold_left (Src.on_data serverProcess) earlier Pending = Pending ->
  fold_left (Lib.on_data serverProcess) earlier Pending = Pending ->
  toString_ascii chunk = a +:+ Posix.ready_line +:+ b ->
  ends_line a -> starts_line b ->
  match_prefix_dotplus "Web UI available at " a = None ->
  let endpoint := {| href := "http://127.0.0.1:9999/"; host := Some "127.0.0.1:9999" |} in
  fold_left (Src.on_data serverProcess) (earlier ++ chunk :: later) Pending
  = Fulfilled (endpoint, serverProcess) /\
  fold_left (Lib.on_data serverProcess) (earlier ++ chunk :: later) Pending
  = Fulfilled (endpoint, serverProcess).
Proof.
  intros Hs Hl Hchunk Ha Hb Hnone endpoint.
  rewrite !fold_left_app, Hs, Hl. simpl.
  unfold Src.on_data at 2, Lib.on_data at 2.
  rewrite Hchunk, (ready_line_match a b Ha Hb Hnone). simpl.
  split; [apply on_data_settled_src | apply on_data_settled_lib].
Qed.

(** ** Navigation URL *)























Lemma ready_line_resolves_endpoint_witness :
  fold_left (Src.on_data {| pid := 4242 |})
    ([String "010" ""] ++ ("starting" +:+ String "010" Posix.ready_line +:+ String "010" "")
       :: [Posix.ready_line]) Pending
  = Fulfilled ({| href := "http://127.0.0.1:9999/"; host := Some "127.0.0.1:9999" |},
               {| pid := 4242 |}).
Proof.
  refine (proj1 (ready_line_resolves_endpoint {| pid := 4242 |}
                   [String "010" ""] [Posix.ready_line]
                   ("starting" +:+ String "010" Posix.ready_line +:+ String "010" "")
                   ("starting" +:+ String "010" "") (String "010" "")
                   eq_refl eq_refl eq_refl _ _ eq_refl)).
  - right. exists "starting", "010"%char. split; reflexivity.
  - reflexivity.
Defined.



Lemma has_question_mark_sapp a b :
  has_question_mark (a +:+ b) = has_question_mark a || has_question_mark b.
Proof.
  unfold has_question_mark. rewrite forallb_sapp, negb_andb. reflexivity.
Qed.

(** C10. The refined variant appends the workspace (or folder) parameter
    and the payload to the address of the endpoint with [&], so the text up
    to the first key has a [?] only if the address of the endpoint has one;
    the earlier variant introduces the first parameter with [?]. *)
Theorem first_parameter_separator (endpoint : Url)
    (workspacePath extensionDevelopmentPath extensionTestsPath : string) :
  let testExtensionUri := url_format extensionDevelopmentPath protocol (host endpoint) in
  let testFilesUri := url_format extensionTestsPath protocol (host endpoint) in
  let testWorkspaceUri := url_format workspacePath protocol (host endpoint) in
  Src.navigationUrl endpoint workspacePath extensionDevelopmentPath extensionTestsPath
  = href endpoint +:+ "&" +:+ workspace_key workspacePath +:+ "=" +:+ workspacePath
    +:+ "&payload=" +:+ Src.payloadParam testExtensionUri testFilesUri /\
  has_question_mark (href endpoint +:+ "&" +:+ workspace_key workspacePath +:+ "=")
  = has_question_mark (href endpoint) /\
  Lib.navigationUrl endpoint workspacePath extensionDevelopmentPath extensionTestsPath
  = href endpoint +:+ "?" +:+ workspace_key testWorkspaceUri +:+ "=" +:+ testWorkspaceUri
    +:+ "&payload=" +:+ Lib.payloadParam testExtensionUri testFilesUri /\
  has_question_mark (href endpoint +:+ "?") = true.
Proof.
  intros testExtensionUri testFilesUri testWorkspaceUri.
  unfold Src.navigationUrl, Lib.navigationUrl, workspace_key.
  fold testExtensionUri testFilesUri testWorkspaceUri.
  repeat split.
  - destruct (String.eqb (extname workspacePath) ".code-workspace"); reflexivity.
  - rewrite has_question_mark_sapp.
    destruct (String.eqb (extname workspacePath) ".code-workspace");
      simpl; apply orb_false_r.
  - destruct (String.eqb (extname testWorkspaceUri) ".code-workspace"); reflexivity.
  - rewrite has_question_mark_sapp. apply orb_true_r.
Qed.

(** ** The console listener *)

Lemma settle_all_values (values : list value) :
  settle_all (List.map inl values) = inl values.
Proof.
  induction values as [|v values IH]; simpl; [reflexivity|].
  rewrite IH. reflexivity.
Qed.

Lemma consoleLogFn_error_warning text args :
  Src.consoleLogFn {| msg_type := "error"; msg_text := text; msg_args := args |} = "error" /\
  Src.consoleLogFn {| msg_type := "warning"; msg_text := text; msg_args := args |} = "warn".
Proof. split; reflexivity. Qed.


(** ** The authentication cookie *)

Lemma get_field_set_field_eq k v fields : get_field k (set_field k v fields) = v.
Proof.
  induction fields as [|[k' v'] fields IH]; simpl.
  - rewrite String.eqb_refl. reflexivity.
  - destruct (String.eqb k k') eqn:E; simpl; rewrite ?String.eqb_refl, ?E; auto.
Qed.

Lemma get_field_set_field_ne k k' v fields :
  k <> k' -> get_field k (set_field k' v fields) = get_field k fields.
Proof.
  intros Hne. apply String.eqb_neq in Hne.
  induction fields as [|[k0 v0] fields IH]; simpl.
  - rewrite Hne. reflexivity.
  - destruct (String.eqb k' k0) eqn:E; simpl.
    + apply String.eqb_eq in E. subst k0. rewrite Hne. reflexivity.
    + destruct (String.eqb k k0); auto.
Qed.

Lemma capitalized_charAt0_slice1 text :
  Str.toUpperCase (Str.charAt0 text) +:+ Str.slice1 text = capitalized text.
Proof. destruct text; reflexivity. Qed.

Lemma normalized_fields getTime fields date sameSite :
  cookie_field "expires" (normalized getTime fields date sameSite)
  = VNum (epoch_seconds (getTime date)) /\
  cookie_field "sameSite" (normalized getTime fields date sameSite)
  = VStr (capitalized sameSite) /\
  forall k, k <> "expires" -> k <> "sameSite" ->
    cookie_field k (normalized getTime fields date sameSite) = get_field k fields.
Proof.
  unfold normalized, cookie_field. repeat split.
  - rewrite get_field_set_field_ne by discriminate. apply get_field_set_field_eq.
  - apply get_field_set_field_eq.
  - intros k He Hs. rewrite !get_field_set_field_ne by assumption. reflexivity.
Qed.

Lemma src_getAuthCookie_absent h st :
  argv_authCookie (argv h) = None -> env h !! "AUTH_COOKIE" = None ->
  Src.getAuthCookie h st = (Ret VUndefined, st).
Proof.
  intros Hf He. unfold Src.getAuthCookie. run_monad. rewrite Hf. simpl.
  rewrite He. reflexivity.
Qed.

Lemma truthy_str_nonempty o text : truthy_str o = Some text -> text <> "".
Proof. destruct o as [[|c t]|]; simpl; intros E; inversion E; discriminate. Qed.

Lemma src_getAuthCookie_normalized h st blob fields date sameSite :
  match truthy_str (argv_authCookie (argv h)) with
  | Some flag => flag = blob
  | None => truthy_str (env h !! "AUTH_COOKIE") = Some blob
  end ->
  JSON_parse (base64_toString blob) = Some (VObj fields) ->
  get_field "expires" fields = VStr date ->
  get_field "sameSite" fields = VStr sameSite ->
  Src.getAuthCookie h st = (Ret (normalized (Date_getTime h) fields date sameSite), st).
Proof.
  intros Hsrc Hparse He Hs. unfold Src.getAuthCookie. run_monad.
  assert (Hstr : truthy_str
            match truthy_str (argv_authCookie (argv h)) with
            | Some flag => Some flag
            | None => env h !! "AUTH_COOKIE"
            end = Some blob).
  { destruct (truthy_str (argv_authCookie (argv h))) as [flag|] eqn:Hflag.
    - subst flag. apply truthy_str_nonempty in Hflag.
      destruct blob; [contradiction|reflexivity].
    - destruct (env h !! "AUTH_COOKIE") as [[|c e]|]; simpl in *;
        try discriminate; exact Hsrc. }
  rewrite Hstr, Hparse. simpl. rewrite He. simpl.
  rewrite get_field_set_field_ne by discriminate. rewrite Hs.
  rewrite capitalized_charAt0_slice1. reflexivity.
Qed.

(** Finish a path of the session: the cookie jar and the events. *)
Ltac finish_cookies :=
  red_state; rewrite <- ?app_assoc;
  repeat split;
  try (first [rewrite drop_app_length | rewrite drop_all]);
  rewrite ?app_nil_r; simpl; auto.

(** C8. In both variants, when neither the [authCookie] flag nor the
    [AUTH_COOKIE] environment variable is set, the session setup never
    calls [addCookies] and the cookies of the browser context are what
    they were. *)
Theorem no_cookie_without_auth (browserType : string) (endpoint : Url)
    (server : option ServerHandle) (h : Host) (st : state) :
  argv_authCookie (argv h) = None ->
  env h !! "AUTH_COOKIE" = None ->
  (cookies_after (Src.runTestsInBrowser browserType endpoint server) h st = cookie_jar st /\
   List.filter is_add_cookies
     (events_of (Src.runTestsInBrowser browserType endpoint server) h st) = []) /\
  (cookies_after (Lib.runTestsInBrowser browserType endpoint server) h st = cookie_jar st /\
   List.filter is_add_cookies
     (events_of (Lib.runTestsInBrowser browserType endpoint server) h st) = []).
Proof.
  intros Hf He. split.
  - unfold Src.runTestsInBrowser, launch, file_uri_path. run_monad.
    match goal with |- context [if ?b then _ else _] => destruct b end; run_monad;
      [|finish_cookies].
    destruct (fails h (Launch browserType true)); simpl; [finish_cookies|].
    destruct (fails h NewContext); simpl; [finish_cookies|].
    rewrite (src_getAuthCookie_absent h _ Hf He).
    change (truthy VUndefined) with false.
    split_paths; finish_cookies.
  - unfold Lib.runTestsInBrowser, launch, file_uri_path. run_monad.
    rewrite He.
    match goal with |- context [if ?b then _ else _] => destruct b end; run_monad;
      [|finish_cookies].
    split_paths; finish_cookies.
Qed.

Lemma no_cookie_without_auth_witness :
  cookies_after (Src.runTestsInBrowser "chromium" Posix.endpoint0 None)
    (Posix.host Posix.argv0 ∅ Posix.no_failure) initial = [].
Proof.
  assert (He : env (Posix.host Posix.argv0 ∅ Posix.no_failure) !! "AUTH_COOKIE" = None)
    by (vm_compute; reflexivity).
  exact (proj1 (proj1 (no_cookie_without_auth "chromium" Posix.endpoint0 None
                         (Posix.host Posix.argv0 ∅ Posix.no_failure) initial
                         eq_refl He))).
Defined.

(** C7, as the code has it. When the decoded cookie object has a string
    [expires] and a string [sameSite], the cookie handed to
    [context.addCookies] has [expires] replaced by the number of seconds of
    that date since the epoch, rounded to the nearest second ([NaN] when the
    string is not a date), and [sameSite] with its first character in upper
    case, and nothing else changed. The refined variant takes the cookie
    from the [authCookie] flag, else from [AUTH_COOKIE], as the base64 of
    its JSON; the earlier variant takes it from [AUTH_COOKIE] only, as plain
    JSON. *)
Theorem auth_cookie_normalized (browserType : string) (endpoint : Url)
    (server : option ServerHandle) (h : Host) (st : state)
    (fields : list (string * value)) (date sameSite : string) :
  existsb (String.eqb browserType) ["chromium"; "firefox"; "webkit"] = true ->
  fails h (Launch browserType true) = None ->
  fails h NewContext = None ->
  get_field "expires" fields = VStr date ->
  get_field "sameSite" fields = VStr sameSite ->
  let cookie := normalized (Date_getTime h) fields date sameSite in
  let jar :=
    cookie_jar st ++
    match fails h (AddCookies [cookie]) with Some _ => [] | None => [cookie] end in
  (cookie_field "expires" cookie = VNum (epoch_seconds (Date_getTime h date)) /\
   cookie_field "sameSite" cookie = VStr (capitalized sameSite) /\
   forall k, k <> "expires" -> k <> "sameSite" ->
     cookie_field k cookie = get_field k fields) /\
  (forall blob,
     match truthy_str (argv_authCookie (argv h)) with
     | Some flag => flag = blob
     | None => truthy_str (env h !! "AUTH_COOKIE") = Some blob
     end ->
     JSON_parse (base64_toString blob) = Some (VObj fields) ->
     In (AddCookies [cookie])
       (events_of (Src.runTestsInBrowser browserType endpoint server) h st) /\
     cookies_after (Src.runTestsInBrowser browserType endpoint server) h st = jar) /\
  (forall text,
     truthy_str (env h !! "AUTH_COOKIE") = Some text ->
     JSON_parse text = Some (VObj fields) ->
     In (AddCookies [cookie])
       (events_of (Lib.runTestsInBrowser browserType endpoint server) h st) /\
     cookies_after (Lib.runTestsInBrowser browserType endpoint server) h st = jar).
Proof.
  intros Hb Hlaunch Hctx He Hs cookie jar.
  split; [apply normalized_fields|]. split.
  - intros blob Hsrc Hparse. subst jar.
    unfold Src.runTestsInBrowser, launch, file_uri_path. run_monad.
    simpl in Hb. rewrite Hb. run_monad. rewrite Hlaunch. simpl. rewrite Hctx. simpl.
    rewrite (src_getAuthCookie_normalized h _ blob fields date sameSite Hsrc Hparse He Hs).
    fold cookie. change (truthy cookie) with true.
    split_paths; finish_cookies.
  - intros text Henv Hparse. subst jar.
    unfold Lib.runTestsInBrowser, launch, file_uri_path. run_monad.
    simpl in Hb. rewrite Hb. run_monad. rewrite Hlaunch. simpl. rewrite Hctx. simpl.
    rewrite Henv, Hparse. simpl. rewrite He. simpl.
    rewrite get_field_set_field_ne by discriminate. rewrite Hs.
    rewrite capitalized_charAt0_slice1. fold (normalized (Date_getTime h) fields date sameSite).
    fold cookie.
    split_paths; finish_cookies.
Qed.

Lemma auth_cookie_normalized_witness :
  cookies_after (Src.runTestsInBrowser "chromium" Posix.endpoint0 None)
    (Posix.host Posix.argv_cookie {[ "AUTH_COOKIE" := Posix.cookie_json ]}
       Posix.no_failure) initial
  = [normalized iso_getTime Posix.cookie_fields "2021-05-01T00:00:00.000Z" "lax"] /\
  cookies_after (Lib.runTestsInBrowser "chromium" Posix.endpoint0 None)
    (Posix.host Posix.argv_cookie {[ "AUTH_COOKIE" := Posix.cookie_json ]}
       Posix.no_failure) initial
  = [normalized iso_getTime Posix.cookie_fields "2021-05-01T00:00:00.000Z" "lax"].
Proof.
  destruct (auth_cookie_normalized "chromium" Posix.endpoint0 None
              (Posix.host Posix.argv_cookie {[ "AUTH_COOKIE" := Posix.cookie_json ]}
                 Posix.no_failure)
              initial Posix.cookie_fields "2021-05-01T00:00:00.000Z" "lax"
              eq_refl eq_refl eq_refl eq_refl eq_refl) as (_ & Hs & Hl).
  split.
  - refine (proj2 (Hs Posix.cookie_base64 eq_refl _)). vm_compute. reflexivity.
  - refine (proj2 (Hl Posix.cookie_json _ _)); vm_compute; reflexivity.
Defined.

(** C7, as stated, fails for the earlier variant: it parses [AUTH_COOKIE]
    as JSON without decoding it, so a cookie supplied as the base64 of its
    JSON, with a string [expires] and a lower-case [sameSite], makes the
    session setup throw a [SyntaxError] before any cookie is injected. *)
Lemma lib_does_not_decode_base64_cookie :
  JSON_parse (base64_toString Posix.cookie_base64) = Some (VObj Posix.cookie_fields) /\
  outcome (Lib.runTestsInBrowser "chromium" Posix.endpoint0 None)
    (Posix.host Posix.argv0 {[ "AUTH_COOKIE" := Posix.cookie_base64 ]} Posix.no_failure)
    initial
  = Throw (VError "SyntaxError: Unexpected token in JSON") /\
  events_of (Lib.runTestsInBrowser "chromium" Posix.endpoint0 None)
    (Posix.host Posix.argv0 {[ "AUTH_COOKIE" := Posix.cookie_base64 ]} Posix.no_failure)
    initial
  = [Launch "chromium" true; NewContext] /\
  cookies_after (Lib.runTestsInBrowser "chromium" Posix.endpoint0 None)
    (Posix.host Posix.argv0 {[ "AUTH_COOKIE" := Posix.cookie_base64 ]} Posix.no_failure)
    initial
  = [].
Proof. vm_compute. repeat split. Qed.

(** ** The models of the Node functions on documented inputs *)

Example extname_examples :
  List.map extname
    ["index.html"; "index.coffee.md"; "index."; "index"; ".index"; ".index.md";
     "/w/app.code-workspace"; "/w/app"; "/"; ".."]
  = [".html"; ".md"; "."; ""; ""; ".md"; ".code-workspace"; ""; ""; ""].
Proof. reflexivity. Qed.

Example url_parse_examples :
  url_parse "http://127.0.0.1:9999/"
  = {| href := "http://127.0.0.1:9999/"; host := Some "127.0.0.1:9999" |} /\
  url_parse "http://localhost:9888?tkn=abc"
  = {| href := "http://localhost:9888/?tkn=abc"; host := Some "localhost:9888" |}.
Proof. split; reflexivity. Qed.

Example url_format_example :
  url_format "/w/ext" protocol (Some "127.0.0.1:9999") = "vscode-remote://127.0.0.1:9999/w/ext".
Proof. reflexivity. Qed.

Example epoch_seconds_examples :
  List.map epoch_seconds [Some 1619827200000; Some 1500; Some 1499; Some (-1500); None]
  = [Num 1619827200 0; Num 2 0; Num 1 0; Num (-2) 0; NaN].
Proof. reflexivity. Qed.

Example capitalized_examples :
  List.map capitalized ["lax"; "strict"; "none"; "Lax"; ""]
  = ["Lax"; "Strict"; "None"; "Lax"; ""].
Proof. reflexivity. Qed.

Example cookie_json_parses :
  JSON_parse Posix.cookie_json = Some (VObj Posix.cookie_fields).
Proof. vm_compute. reflexivity. Qed.

(** Why the workspace path is asked to have a last component: the earlier
    variant takes the extension of the workspace address, and for the root
    path that is the extension of the host. *)
Remark lib_extension_of_root_workspace :
  query_keys (Lib.navigationUrl
                {| href := "http://x.code-workspace/"; host := Some "x.code-workspace" |}
                "/" "/w/ext" "/w/t")
  = ["workspace"; "payload"].
Proof. vm_compute. reflexivity. Qed.

(** * Further properties of the two files *)

(** ** Programs confined to a kind of event *)

Lemma confined_ret {A} p (a : A) : confined p (mret a).
Proof.
  intros h st. exists []. rewrite app_nil_r.
  repeat split; try reflexivity. discriminate.
Qed.

Lemma confined_ask p : confined p ask.
Proof.
  intros h st. exists []. rewrite app_nil_r.
  repeat split; try reflexivity. discriminate.
Qed.

Lemma confined_throw {A} p (e : value) : confined p (@throw A e).
Proof.
  intros h st. exists []. rewrite app_nil_r.
  repeat split; try reflexivity. discriminate.
Qed.

Lemma confined_call p (e : event) : p e = true -> confined p (call e).
Proof.
  intros He h st. exists [e]. unfold call.
  destruct (fails h e); simpl; rewrite He;
    repeat split; try reflexivity; discriminate.
Qed.

Lemma confined_emit p (e : event) : p e = true -> confined p (emit e).
Proof.
  intros He h st. exists [e]. unfold emit. simpl. rewrite He.
  repeat split; try reflexivity; discriminate.
Qed.

Lemma confined_addCookies p (cookies : list value) :
  p (AddCookies cookies) = true -> confined p (addCookies cookies).
Proof.
  intros He h st. exists [AddCookies cookies]. unfold addCookies.
  destruct (fails h _); simpl; rewrite He;
    repeat split; try reflexivity; discriminate.
Qed.

Lemma confined_bind {A B} p (m : M A) (k : A -> M B) :
  confined p m -> (forall a, confined p (k a)) -> confined p (m ≫= k).
Proof.
  intros Hm Hk h st. unfold mbind, M_bind.
  destruct (Hm h st) as (evs & E & Q & X & L1 & L2 & L3).
  destruct (m h st) as [[a|e|c] st1]; simpl in *.
  - destruct (Hk a h st1) as (evs' & E' & Q' & X' & L1' & L2' & L3').
    exists (evs ++ evs'). rewrite E', E, app_assoc, forallb_app, Q, Q'.
    repeat split; try reflexivity; try congruence; try exact X'.
  - exists evs. repeat split; try assumption; try discriminate.
  - exfalso. apply (X c). reflexivity.
Qed.

Lemma confined_try_catch {A} p (m : M A) (handler : value -> M A) :
  confined p m -> (forall e, confined p (handler e)) -> confined p (try_catch m handler).
Proof.
  intros Hm Hk h st. unfold try_catch.
  destruct (Hm h st) as (evs & E & Q & X & L1 & L2 & L3).
  destruct (m h st) as [[a|e|c] st1]; simpl in *.
  - exists evs. repeat split; try assumption; try discriminate.
  - destruct (Hk e h st1) as (evs' & E' & Q' & X' & L1' & L2' & L3').
    exists (evs ++ evs'). rewrite E', E, app_assoc, forallb_app, Q, Q'.
    repeat split; try reflexivity; try congruence; try exact X'.
  - exfalso. apply (X c). reflexivity.
Qed.

Lemma confined_get_prop p v k : confined p (get_prop v k).
Proof. destruct v; simpl; auto using confined_ret, confined_throw. Qed.

Lemma confined_launch browserType : confined is_session_event (launch browserType).
Proof.
  unfold launch. destruct (existsb _ _); [apply confined_call; reflexivity|].
  apply confined_throw.
Qed.

Lemma confined_file_uri_path p path : confined p (file_uri_path path).
Proof.
  unfold file_uri_path. apply confined_bind; [apply confined_ask|].
  intros h. destruct path; auto using confined_ret, confined_throw.
Qed.

Lemma confined_getAuthCookie p : confined p Src.getAuthCookie.
Proof.
  unfold Src.getAuthCookie. apply confined_bind; [apply confined_ask|]. intros h.
  destruct (truthy_str _); [|apply confined_ret].
  destruct (JSON_parse _); [|apply confined_throw].
  apply confined_bind; [apply confined_get_prop|]. intros expires.
  apply confined_bind; [apply confined_get_prop|]. intros sameSite.
  apply confined_ret.
Qed.

(** Take a chain of binds apart, one confined step at a time. *)
Ltac confined_steps :=
  repeat first
    [ apply confined_ret
    | apply confined_throw
    | apply confined_ask
    | apply confined_launch
    | apply confined_getAuthCookie
    | apply confined_get_prop
    | apply confined_file_uri_path
    | apply confined_addCookies; reflexivity
    | apply confined_call; reflexivity
    | apply confined_emit; reflexivity
    | apply confined_bind; [|intros ?]
    | apply confined_try_catch; [|intros ?]
    | match goal with
      | |- confined _ (if ?b then _ else _) => destruct b
      | |- confined _ (match ?x with _ => _ end) => destruct x
      end ].

Lemma src_session_confined browserType endpoint server :
  confined is_session_event (Src.runTestsInBrowser browserType endpoint server).
Proof. unfold Src.runTestsInBrowser. confined_steps. Qed.

Lemma lib_session_confined browserType endpoint server :
  confined is_session_event (Lib.runTestsInBrowser browserType endpoint server).
Proof. unfold Lib.runTestsInBrowser. confined_steps. Qed.

Lemma confined_events {A} p (m : M A) h st :
  confined p m ->
  List.forallb p (events_of m h st) = true /\
  (forall code, outcome m h st <> Exit code) /\
  same_listeners st (snd (m h st)).
Proof.
  intros H. destruct (H h st) as (evs & E & Q & X & L).
  rewrite (events_of_intro m h st evs E). auto.
Qed.

(** X2. In both variants the session setup only talks to the browser:
    whatever fails, every call it makes is a launch, context, cookie, page,
    viewport, subscription, navigation or expose call. It never writes to
    the console, never closes the browser, never kills or spawns a process,
    never ends the outer process, and leaves the process listeners alone;
    a failure leaves the browser open. *)
Theorem session_setup_only_drives_browser browserType endpoint server h st :
  (List.forallb is_session_event
     (events_of (Src.runTestsInBrowser browserType endpoint server) h st) = true /\
   (forall code, outcome (Src.runTestsInBrowser browserType endpoint server) h st
                 <> Exit code) /\
   same_listeners st (snd (Src.runTestsInBrowser browserType endpoint server h st))) /\
  (List.forallb is_session_event
     (events_of (Lib.runTestsInBrowser browserType endpoint server) h st) = true /\
   (forall code, outcome (Lib.runTestsInBrowser browserType endpoint server) h st
                 <> Exit code) /\
   same_listeners st (snd (Lib.runTestsInBrowser browserType endpoint server h st))).
Proof.
  split; apply confined_events;
    [apply src_session_confined | apply lib_session_confined].
Qed.

(** ** The module body *)

Arguments Src.launchServer : simpl never.
Arguments Lib.launchServer : simpl never.
Arguments Src.runTestsInBrowser : simpl never.
Arguments Lib.runTestsInBrowser : simpl never.
Arguments Src.echo_stdout : simpl never.

Lemma echo_stdout_run chunks h st :
  Src.echo_stdout chunks h st =
  (Ret tt,
   {| trace := trace st ++ echoed chunks; cookie_jar := cookie_jar st;
      on_exit := on_exit st; on_SIGINT := on_SIGINT st; on_SIGTERM := on_SIGTERM st |}).
Proof.
  revert st. induction chunks as [|data chunks IH]; intros st.
  - simpl. rewrite app_nil_r. destruct st; reflexivity.
  - unfold Src.echo_stdout; fold Src.echo_stdout. run_monad. rewrite IH. simpl.
    rewrite <- app_assoc. reflexivity.
Qed.



Lemma src_launchServer_launches browserType h st :
  exists evs,
    trace (snd (Src.launchServer browserType h st)) = trace st ++ evs /\
    List.forallb is_launch_event evs = true /\
    (forall code, fst (Src.launchServer browserType h st) <> Exit code) /\
    cookie_jar (snd (Src.launchServer browserType h st)) = cookie_jar st.
Proof.
  unfold Src.launchServer. run_monad.
  destruct (truthy_str (env h !! "VSCODE_REMOTE_SERVER_PATH")); run_monad.
  2:{ exists []. rewrite app_nil_r. repeat split; discriminate. }
  destruct (fails h (TmpDirSync "t")); simpl.
  { eexists. split; [reflexivity|]. repeat split; discriminate. }
  destruct (fails h (Require _)); simpl.
  { eexists. rewrite <- !app_assoc. split; [reflexivity|]. repeat split; discriminate. }
  destruct (fails h (Spawn _ _ _ _)); simpl.
  { eexists. rewrite <- !app_assoc. split; [reflexivity|]. repeat split; discriminate. }
  destruct (argv_debug (argv h)); simpl;
    eexists; rewrite <- !app_assoc; (split; [reflexivity|]); repeat split; discriminate.
Qed.

Lemma lib_launchServer_launches browserType h st :
  exists evs,
    trace (snd (Lib.launchServer browserType h st)) = trace st ++ evs /\
    List.forallb is_launch_event evs = true /\
    (forall code, fst (Lib.launchServer browserType h st) <> Exit code) /\
    cookie_jar (snd (Lib.launchServer browserType h st)) = cookie_jar st.
Proof.
  unfold Lib.launchServer. run_monad.
  destruct (truthy_str (env h !! "VSCODE_REMOTE_SERVER_PATH")); run_monad.
  2:{ exists []. rewrite app_nil_r. repeat split; discriminate. }
  destruct (fails h (TmpDirSync "t")); simpl.
  { eexists. split; [reflexivity|]. repeat split; discriminate. }
  destruct (fails h (Spawn _ _ _ _)); simpl.
  { eexists. rewrite <- !app_assoc. split; [reflexivity|]. repeat split; discriminate. }
  eexists; rewrite <- !app_assoc; (split; [reflexivity|]); repeat split; discriminate.
Qed.

(** What the module body does in each of its cases. *)

Lemma src_main_endpoint stdout h st e :
  argv_help (argv h) = false ->
  truthy_str (argv_endpoint (argv h)) = Some e ->
  Src.main stdout h st
  = Src.runTestsInBrowser (argv_browser (argv h)) (url_parse e) None h st.
Proof.
  intros Hh He. unfold Src.main. run_monad. rewrite Hh, He. simpl.
  destruct (Src.runTestsInBrowser _ _ _ h st) as [[[]| |] st']; reflexivity.
Qed.

Lemma lib_main_endpoint stdout h st e :
  argv_help (argv h) = false ->
  truthy_str (argv_endpoint (argv h)) = Some e ->
  Lib.main stdout h st
  = Lib.runTestsInBrowser (argv_browser (argv h)) (url_parse e) None h st.
Proof.
  intros Hh He. unfold Lib.main. run_monad. rewrite Hh, He. simpl.
  destruct (Lib.runTestsInBrowser _ _ _ h st) as [[[]| |] st']; reflexivity.
Qed.

Lemma src_main_launch_failed stdout h st err st1 :
  argv_help (argv h) = false ->
  truthy_str (argv_endpoint (argv h)) = None ->
  Src.launchServer (argv_browser (argv h)) h st = (Throw err, st1) ->
  Src.main stdout h st
  = (Exit 1,
     {| trace := trace st1 ++ [Console "error" [err]]
                 ++ List.map exit_listener_event (on_exit st1) ++ [ProcessExit 1];
        cookie_jar := cookie_jar st1; on_exit := on_exit st1;
        on_SIGINT := on_SIGINT st1; on_SIGTERM := on_SIGTERM st1 |}).
Proof.
  intros Hh He Hl. unfold Src.main. run_monad. rewrite Hh, He. simpl.
  rewrite Hl. simpl. rewrite <- app_assoc. reflexivity.
Qed.

Lemma lib_main_launch_failed stdout h st err st1 :
  argv_help (argv h) = false ->
  truthy_str (argv_endpoint (argv h)) = None ->
  Lib.launchServer (argv_browser (argv h)) h st = (Throw err, st1) ->
  Lib.main stdout h st
  = (Exit 1,
     {| trace := trace st1 ++ [Console "error" [err]]
                 ++ List.map exit_listener_event (on_exit st1) ++ [ProcessExit 1];
        cookie_jar := cookie_jar st1; on_exit := on_exit st1;
        on_SIGINT := on_SIGINT st1; on_SIGTERM := on_SIGTERM st1 |}).
Proof.
  intros Hh He Hl. unfold Lib.main. run_monad. rewrite Hh, He. simpl.
  rewrite Hl. simpl. rewrite <- app_assoc. reflexivity.
Qed.

Lemma src_main_launched stdout h st sp st1 :
  argv_help (argv h) = false ->
  truthy_str (argv_endpoint (argv h)) = None ->
  Src.launchServer (argv_browser (argv h)) h st = (Ret sp, st1) ->
  let st2 :=
    {| trace := trace st1 ++ (if argv_debug (argv h) then echoed stdout else []);
       cookie_jar := cookie_jar st1; on_exit := on_exit st1;
       on_SIGINT := on_SIGINT st1; on_SIGTERM := on_SIGTERM st1 |} in
  Src.main stdout h st
  = match fold_left (Src.on_data sp) stdout Pending with
    | Fulfilled (endpoint, server) =>
        Src.runTestsInBrowser (argv_browser (argv h)) endpoint (Some server) h st2
    | Rejected error =>
        (emit (Console "error" [error]) ;; process_exit 1) h st2
    | Pending => (Ret tt, st2)
    end.
Proof.
  intros Hh He Hl st2. unfold Src.main. run_monad. rewrite Hh, He. simpl.
  rewrite Hl. simpl.
  assert (E : (if argv_debug (argv h) then Src.echo_stdout stdout else λ _ st0, (Ret (), st0))
                h st1 = (Ret tt, st2)).
  { subst st2. destruct (argv_debug (argv h)).
    - apply echo_stdout_run.
    - rewrite app_nil_r. destruct st1; reflexivity. }
  rewrite E. simpl.
  destruct (fold_left (Src.on_data sp) stdout Pending) as [|[endpoint server]|error]; simpl;
    try reflexivity.
  all: try (destruct (Src.runTestsInBrowser _ _ _ h st2) as [[[]| |] st']; reflexivity).
Qed.

Lemma lib_main_launched stdout h st sp st1 :
  argv_help (argv h) = false ->
  truthy_str (argv_endpoint (argv h)) = None ->
  Lib.launchServer (argv_browser (argv h)) h st = (Ret sp, st1) ->
  Lib.main stdout h st
  = match fold_left (Lib.on_data sp) stdout Pending with
    | Fulfilled (endpoint, server) =>
        Lib.runTestsInBrowser (argv_browser (argv h)) endpoint (Some server) h st1
    | Rejected error =>
        (emit (Console "error" [error]) ;; process_exit 1) h st1
    | Pending => (Ret tt, st1)
    end.
Proof.
  intros Hh He Hl. unfold Lib.main. run_monad. rewrite Hh, He. simpl.
  rewrite Hl. simpl.
  destruct (fold_left (Lib.on_data sp) stdout Pending) as [|[endpoint server]|error]; simpl;
    try reflexivity.
  all: try (destruct (Lib.runTestsInBrowser _ _ _ h st1) as [[[]| |] st']; reflexivity).
Qed.

(** X3. With a non-empty [endpoint] flag the module body is the session
    on [url.parse] of the flag with no server handle: nothing is created,
    required or spawned, and no process listener is registered. *)
Theorem endpoint_flag_attaches_without_launch (stdout : list string) (h : Host)
    (st : state) (e : string) :
  argv_help (argv h) = false ->
  truthy_str (argv_endpoint (argv h)) = Some e ->
  (Src.main stdout h st
   = Src.runTestsInBrowser (argv_browser (argv h)) (url_parse e) None h st /\
   List.forallb is_session_event (events_of (Src.main stdout) h st) = true /\
   same_listeners st (snd (Src.main stdout h st))) /\
  (Lib.main stdout h st
   = Lib.runTestsInBrowser (argv_browser (argv h)) (url_parse e) None h st /\
   List.forallb is_session_event (events_of (Lib.main stdout) h st) = true /\
   same_listeners st (snd (Lib.main stdout h st))).
Proof.
  intros Hh He. split.
  - pose proof (src_main_endpoint stdout h st e Hh He) as E.
    split; [exact E|]. unfold events_of. rewrite E.
    destruct (confined_events _ _ h st
                (src_session_confined (argv_browser (argv h)) (url_parse e) None))
      as (Q & _ & L).
    split; [exact Q | exact L].
  - pose proof (lib_main_endpoint stdout h st e Hh He) as E.
    split; [exact E|]. unfold events_of. rewrite E.
    destruct (confined_events _ _ h st
                (lib_session_confined (argv_browser (argv h)) (url_parse e) None))
      as (Q & _ & L).
    split; [exact Q | exact L].
Qed.

Lemma endpoint_flag_attaches_without_launch_witness :
  List.forallb is_session_event
    (events_of (Src.main [])
       (Posix.host Posix.argv_attach Posix.server_env Posix.no_failure) initial) = true.
Proof.
  exact (proj1 (proj2 (proj1 (endpoint_flag_attaches_without_launch []
           (Posix.host Posix.argv_attach Posix.server_env Posix.no_failure) initial
           "http://127.0.0.1:9999/" eq_refl eq_refl)))).
Defined.

(** X4. When [launchServer] rejects, for whatever reason (the variable
    is missing, or [tmp.dirSync], [require] or [spawn] throws), the module
    body adds one [console.error] of the error, runs the ['exit'] listeners
    registered so far and ends the process with code 1. *)
Theorem launch_failure_exits_1 (stdout : list string) (h : Host) (st : state) :
  argv_help (argv h) = false ->
  truthy_str (argv_endpoint (argv h)) = None ->
  (forall err,
     outcome (Src.launchServer (argv_browser (argv h))) h st = Throw err ->
     outcome (Src.main stdout) h st = Exit 1 /\
     events_of (Src.main stdout) h st
     = events_of (Src.launchServer (argv_browser (argv h))) h st
       ++ [Console "error" [err]]
       ++ List.map exit_listener_event
            (on_exit (snd (Src.launchServer (argv_browser (argv h)) h st)))
       ++ [ProcessExit 1]) /\
  (forall err,
     outcome (Lib.launchServer (argv_browser (argv h))) h st = Throw err ->
     outcome (Lib.main stdout) h st = Exit 1 /\
     events_of (Lib.main stdout) h st
     = events_of (Lib.launchServer (argv_browser (argv h))) h st
       ++ [Console "error" [err]]
       ++ List.map exit_listener_event
            (on_exit (snd (Lib.launchServer (argv_browser (argv h)) h st)))
       ++ [ProcessExit 1]).
Proof.
  intros Hh He. split; intros err Hl.
  - destruct (src_launchServer_launches (argv_browser (argv h)) h st)
      as (evs & E & _).
    unfold outcome in Hl.
    destruct (Src.launchServer (argv_browser (argv h)) h st) as [r st1] eqn:L.
    simpl in Hl, E. subst r.
    pose proof (src_main_launch_failed stdout h st err st1 Hh He L) as M.
    unfold outcome, events_of. rewrite M, L. simpl. split; [reflexivity|].
    rewrite E, <- app_assoc, !drop_app_length. reflexivity.
  - destruct (lib_launchServer_launches (argv_browser (argv h)) h st)
      as (evs & E & _).
    unfold outcome in Hl.
    destruct (Lib.launchServer (argv_browser (argv h)) h st) as [r st1] eqn:L.
    simpl in Hl, E. subst r.
    pose proof (lib_main_launch_failed stdout h st err st1 Hh He L) as M.
    unfold outcome, events_of. rewrite M, L. simpl. split; [reflexivity|].
    rewrite E, <- app_assoc, !drop_app_length. reflexivity.
Qed.

Lemma launch_failure_exits_1_witness :
  outcome (Src.main [])
    (Posix.host Posix.argv0 Posix.server_env Posix.spawn_fails) initial = Exit 1 /\
  List.filter is_cleanup_step
    (events_of (Src.main [])
       (Posix.host Posix.argv0 Posix.server_env Posix.spawn_fails) initial)
  = [RimrafSync "/tmp/t-1"; ProcessExit 1].
Proof.
  destruct (proj1 (launch_failure_exits_1 []
              (Posix.host Posix.argv0 Posix.server_env Posix.spawn_fails) initial
              eq_refl eq_refl) (VError "spawn ENOENT")) as [Ho He].
  - vm_compute. reflexivity.
  - split; [exact Ho|]. rewrite He. vm_compute. reflexivity.
Defined.

Lemma src_no_match_pending sp chunks :
  (forall chunk, In chunk chunks ->
     match_prefix_dotplus "Web UI available at " (toString_ascii chunk) = None) ->
  fold_left (Src.on_data sp) chunks Pending = Pending.
Proof.
  induction chunks as [|c chunks IH]; intros H; [reflexivity|]. simpl.
  unfold Src.on_data at 2. rewrite (H c) by (left; reflexivity).
  apply IH. intros chunk Hin. apply H. right. exact Hin.
Qed.

Lemma lib_no_match_pending sp chunks :
  (forall chunk, In chunk chunks ->
     match_prefix_dotplus "Web UI available at " (toString_ascii chunk) = None) ->
  fold_left (Lib.on_data sp) chunks Pending = Pending.
Proof.
  induction chunks as [|c chunks IH]; intros H; [reflexivity|]. simpl.
  unfold Lib.on_data at 2. rewrite (H c) by (left; reflexivity).
  apply IH. intros chunk Hin. apply H. right. exact Hin.
Qed.

Lemma filter_none_of {A} (p q : A -> bool) l :
  (forall x, p x = true -> q x = false) ->
  List.forallb p l = true -> List.filter q l = [].
Proof.
  intros Hpq. induction l as [|x l IH]; simpl; [reflexivity|].
  intros H. apply andb_true_iff in H as [Hx Hl].
  rewrite (Hpq x Hx). apply IH. exact Hl.
Qed.

Lemma echoed_no_session chunks : List.filter is_session_event (echoed chunks) = [].
Proof. induction chunks as [|c chunks IH]; simpl; [reflexivity | exact IH]. Qed.

(** X5. When no chunk of the child's standard output matches the
    readiness pattern, the promise stays pending: the module body returns
    with the server running and the browser never launched; there is no
    timeout. *)
Theorem no_readiness_line_no_session (stdout : list string) (h : Host) (st : state) :
  argv_help (argv h) = false ->
  truthy_str (argv_endpoint (argv h)) = None ->
  (forall chunk, In chunk stdout ->
     match_prefix_dotplus "Web UI available at " (toString_ascii chunk) = None) ->
  (forall sp,
     outcome (Src.launchServer (argv_browser (argv h))) h st = Ret sp ->
     fold_left (Src.on_data sp) stdout Pending = Pending /\
     outcome (Src.main stdout) h st = Ret tt /\
     List.filter is_session_event (events_of (Src.main stdout) h st) = []) /\
  (forall sp,
     outcome (Lib.launchServer (argv_browser (argv h))) h st = Ret sp ->
     fold_left (Lib.on_data sp) stdout Pending = Pending /\
     outcome (Lib.main stdout) h st = Ret tt /\
     List.filter is_session_event (events_of (Lib.main stdout) h st) = []).
Proof.
  intros Hh He Hno. split; intros sp Hl.
  - pose proof (src_no_match_pending sp stdout Hno) as P. split; [exact P|].
    destruct (src_launchServer_launches (argv_browser (argv h)) h st)
      as (evs & E & Q & _).
    unfold outcome in Hl.
    destruct (Src.launchServer (argv_browser (argv h)) h st) as [r st1] eqn:L.
    simpl in Hl, E. subst r.
    pose proof (src_main_launched stdout h st sp st1 Hh He L) as M. simpl in M.
    rewrite P in M. unfold outcome, events_of. rewrite M. simpl.
    split; [reflexivity|].
    rewrite E, <- app_assoc, drop_app_length, List.filter_app.
    rewrite (filter_none_of is_launch_event is_session_event evs)
      by (try exact Q; intros []; simpl; congruence).
    destruct (argv_debug (argv h)); [apply echoed_no_session | reflexivity].
  - pose proof (lib_no_match_pending sp stdout Hno) as P. split; [exact P|].
    destruct (lib_launchServer_launches (argv_browser (argv h)) h st)
      as (evs & E & Q & _).
    unfold outcome in Hl.
    destruct (Lib.launchServer (argv_browser (argv h)) h st) as [r st1] eqn:L.
    simpl in Hl, E. subst r.
    pose proof (lib_main_launched stdout h st sp st1 Hh He L) as M.
    rewrite P in M. unfold outcome, events_of. rewrite M. simpl.
    split; [reflexivity|].
    rewrite E, drop_app_length.
    apply (filter_none_of is_launch_event is_session_event evs); [|exact Q].
    intros []; simpl; congruence.
Qed.

Lemma no_readiness_line_no_session_witness :
  outcome (Src.main ["starting"; "still starting"])
    (Posix.host Posix.argv0 Posix.server_env Posix.no_failure) initial = Ret tt.
Proof.
  refine (proj1 (proj2 (proj1 (no_readiness_line_no_session ["starting"; "still starting"]
            (Posix.host Posix.argv0 Posix.server_env Posix.no_failure) initial
            eq_refl eq_refl _) {| pid := 4242 |} _))).
  - intros chunk [<-|[<-|[]]]; reflexivity.
  - vm_compute. reflexivity.
Defined.


(** ** Teardown after a launch *)

Lemma logged_no_cleanup failure message :
  List.filter is_cleanup_step (logged failure message) = [].
Proof. destruct failure; reflexivity. Qed.

(** X7. After the harness has launched the server, the exit entry point
    with code [N] closes the browser, kills the process tree of the child,
    and then, through the ['exit'] listeners that [launchServer] registered,
    removes the temporary data directory and kills the child once more,
    before the process ends with [N]. *)
Theorem teardown_after_launch (browserType : string) (h : Host) (st : state) (N : Z) :
  on_exit st = [] ->
  let cleanup :=
    [BrowserClose; TreeKill (spawn_pid h); RimrafSync (tmp_name h);
     ChildKill (spawn_pid h); ProcessExit N] in
  (forall server st',
     Src.launchServer browserType h st = (Ret server, st') ->
     outcome (Src.codeAutomationExit (Some server) N) h st' = Exit N /\
     List.filter is_cleanup_step (events_of (Src.codeAutomationExit (Some server) N) h st')
     = cleanup) /\
  (forall server st',
     Lib.launchServer browserType h st = (Ret server, st') ->
     outcome (Lib.codeAutomationExit (Some server) N) h st' = Exit N /\
     List.filter is_cleanup_step (events_of (Lib.codeAutomationExit (Some server) N) h st')
     = cleanup).
Proof.
  intros Hx cleanup. split; intros server st' L.
  - destruct (src_launchServer_listeners _ _ _ _ _ L) as (-> & Ex & _).
    pose proof (src_codeAutomationExit_run (Some {| pid := spawn_pid h |}) N h st') as E.
    unfold outcome. rewrite E. split; [reflexivity|].
    rewrite (events_of_intro _ h st' _ (f_equal (fun r => trace (snd r)) E)).
    rewrite Ex, Hx.
    rewrite !List.filter_app, !logged_no_cleanup. reflexivity.
  - destruct (lib_launchServer_listeners _ _ _ _ _ L) as (-> & Ex & _).
    pose proof (lib_codeAutomationExit_run (Some {| pid := spawn_pid h |}) N h st') as E.
    unfold outcome. rewrite E. split; [reflexivity|].
    rewrite (events_of_intro _ h st' _ (f_equal (fun r => trace (snd r)) E)).
    rewrite Ex, Hx.
    rewrite !List.filter_app, !logged_no_cleanup. reflexivity.
Qed.

Lemma teardown_after_launch_witness :
  List.filter is_cleanup_step
    (events_of (Src.codeAutomationExit (Some {| pid := 4242 |}) 3)
       (Posix.host Posix.argv0 Posix.server_env Posix.no_failure)
       (snd (Src.launchServer "chromium"
               (Posix.host Posix.argv0 Posix.server_env Posix.no_failure) initial)))
  = [BrowserClose; TreeKill 4242; RimrafSync "/tmp/t-1"; ChildKill 4242; ProcessExit 3].
Proof.
  refine (proj2 (proj1 (teardown_after_launch "chromium"
            (Posix.host Posix.argv0 Posix.server_env Posix.no_failure) initial 3 eq_refl)
            {| pid := 4242 |} _ _)).
  vm_compute. reflexivity.
Defined.

(** ** What the child is spawned with *)

Lemma overlay_keeps_environment (e overlay : gmap string string) k v :
  e !! k = Some v -> (e ∪ overlay) !! k = Some v.
Proof. intros H. apply lookup_union_Some_l. exact H. Qed.

(** X8. [launchServer] spawns exactly one child. The child inherits
    every variable of the environment; [VSCODE_BROWSER] (and, in the earlier
    variant, [VSCODE_AGENT_FOLDER]) is set only when the environment does not
    already have it; the child's standard output is piped; and the refined
    variant passes the data directory inside the temporary directory as the
    last argument. *)
Theorem spawn_inherits_environment (browserType : string) (h : Host) (st : state) :
  (forall server st',
     Src.launchServer browserType h st = (Ret server, st') ->
     exists command args env' stdio,
       List.filter is_spawn (events_of (Src.launchServer browserType) h st)
       = [Spawn command args env' stdio] /\
       (forall k v, env h !! k = Some v -> env' !! k = Some v) /\
       env' !! "VSCODE_BROWSER"
       = Some (default browserType (env h !! "VSCODE_BROWSER")) /\
       stdio !! 1%nat = Some "pipe" /\
       List.last args "" = path_join h [tmp_name h; "d"]) /\
  (forall server st',
     Lib.launchServer browserType h st = (Ret server, st') ->
     exists command args env' stdio,
       List.filter is_spawn (events_of (Lib.launchServer browserType) h st)
       = [Spawn command args env' stdio] /\
       (forall k v, env h !! k = Some v -> env' !! k = Some v) /\
       env' !! "VSCODE_BROWSER"
       = Some (default browserType (env h !! "VSCODE_BROWSER")) /\
       env' !! "VSCODE_AGENT_FOLDER"
       = Some (default (path_join h [tmp_name h; "d"]) (env h !! "VSCODE_AGENT_FOLDER")) /\
       stdio = ["ignore"; "pipe"; "ignore"]).
Proof.
  split; intros server st'.
  - unfold events_of, Src.launchServer. run_monad.
    destruct (truthy_str (env h !! "VSCODE_REMOTE_SERVER_PATH")); [|discriminate].
    run_monad.
    destruct (fails h (TmpDirSync "t")); [discriminate|]. simpl.
    destruct (fails h (Require _)); [discriminate|]. simpl.
    destruct (fails h (Spawn _ _ _ _)); [discriminate|]. simpl.
    destruct (argv_debug (argv h)); simpl; intros _; do 4 eexists;
      (split; [rewrite <- !app_assoc, drop_app_length; reflexivity|]);
      (split; [intros k v; apply overlay_keeps_environment|]);
      (split; [|split; reflexivity]);
      (destruct (env h !! "VSCODE_BROWSER") as [b|] eqn:Eb; simpl;
       [apply lookup_union_Some_l; exact Eb
       |rewrite lookup_union_r by exact Eb; apply lookup_singleton_eq]).
  - unfold events_of, Lib.launchServer. run_monad.
    destruct (truthy_str (env h !! "VSCODE_REMOTE_SERVER_PATH")); [|discriminate].
    run_monad.
    destruct (fails h (TmpDirSync "t")); [discriminate|]. simpl.
    destruct (fails h (Spawn _ _ _ _)); [discriminate|]. simpl.
    intros _.
    do 4 eexists.
    split; [rewrite <- !app_assoc, drop_app_length; reflexivity|].
    split; [intros k v; apply overlay_keeps_environment|].
    split.
    { destruct (env h !! "VSCODE_BROWSER") as [b|] eqn:Eb; simpl.
      - apply lookup_union_Some_l. exact Eb.
      - rewrite lookup_union_r by exact Eb.
        rewrite lookup_union_r by (apply lookup_singleton_ne; discriminate).
        apply lookup_singleton_eq. }
    split; [|reflexivity].
    destruct (env h !! "VSCODE_AGENT_FOLDER") as [b|] eqn:Eb; simpl.
    + apply lookup_union_Some_l. exact Eb.
    + rewrite lookup_union_r by exact Eb.
      apply lookup_union_Some_l. apply lookup_singleton_eq.
Qed.

(** ** The pattern of the readiness line *)

Lemma prefix_sapp pre rest : String.prefix pre (pre +:+ rest) = true.
Proof.
  induction pre as [|c pre IH]; [destruct rest; reflexivity|].
  rewrite sapp_cons. simpl. destruct (ascii_dec c c); [exact IH|contradiction].
Qed.

Lemma drop_length_sapp pre rest : Str.drop (String.length pre) (pre +:+ rest) = rest.
Proof. induction pre as [|c pre IH]; [reflexivity|]. rewrite sapp_cons. exact IH. Qed.





Lemma take_while_line group rest :
  Str.forallb (fun c => negb (is_line_terminator c)) group = true ->
  starts_line rest ->
  Str.take_while (fun c => negb (is_line_terminator c)) (group +:+ rest) = group.
Proof.
  intros Hg Hr. destruct rest as [|c rest].
  - rewrite sapp_nil_r. apply take_while_all. exact Hg.
  - simpl in Hr. rewrite take_while_stop by (rewrite Hr; reflexivity).
    apply take_while_all. exact Hg.
Qed.




Lemma line_match pre before group rest :
  pre <> "" ->
  Str.forallb (fun x => negb (is_line_terminator x)) pre = true ->
  group <> "" ->
  Str.forallb (fun c => negb (is_line_terminator c)) group = true ->
  ends_line before -> starts_line rest ->
  match_prefix_dotplus pre before = None ->
  match_prefix_dotplus pre (before +:+ pre +:+ group +:+ rest) = Some group.
Proof.
  intros Hpre Hpf Hg Hgf Hb Hr Hnone.
  assert (Hline : match_prefix_dotplus pre (pre +:+ group +:+ rest) = Some group).
  { rewrite match_prefix_dotplus_eq. unfold match_here.
    rewrite prefix_sapp, drop_length_sapp, (take_while_line group rest Hgf Hr).
    destruct group; [contradiction|reflexivity]. }
  destruct Hb as [->|(b & c & -> & Hc)]; [exact Hline|].
  rewrite sapp_assoc, sapp_cons.
  change ("" +:+ pre +:+ group +:+ rest) with (pre +:+ group +:+ rest).
  rewrite match_before_terminator by assumption.
  rewrite (match_before_terminator _ b c "") in Hnone by assumption.
  destruct (match_prefix_dotplus pre b); [discriminate|]. exact Hline.
Qed.

(** X10. For any address on the readiness line: the first chunk that
    holds a line [Web UI available at <address>] fulfils the promise with
    [url.parse] of the address, to the end of that line, and the process
    handle; later chunks, matching or not, do not change it. *)
Theorem first_ready_line_settles_promise (serverProcess : ServerHandle)
    (earlier later : list string) (chunk before address rest : string) :
  fold_left (Src.on_data serverProcess) earlier Pending = Pending ->
  toString_ascii chunk = before +:+ "Web UI available at " +:+ address +:+ rest ->
  address <> "" ->
  Str.forallb (fun c => negb (is_line_terminator c)) address = true ->
  ends_line before -> starts_line rest ->
  match_prefix_dotplus "Web UI available at " before = None ->
  fold_left (Src.on_data serverProcess) (earlier ++ chunk :: later) Pending
  = Fulfilled (url_parse address, serverProcess) /\
  fold_left (Lib.on_data serverProcess) (earlier ++ chunk :: later) Pending
  = Fulfilled (url_parse address, serverProcess).
Proof.
  intros Hs Hchunk Ha Haf Hb Hr Hnone.
  assert (Hl : fold_left (Lib.on_data serverProcess) earlier Pending = Pending)
    by exact Hs.
  rewrite !fold_left_app, Hs, Hl. simpl.
  unfold Src.on_data at 2, Lib.on_data at 2.
  rewrite Hchunk.
  rewrite (line_match "Web UI available at " before address rest
             ltac:(discriminate) eq_refl Ha Haf Hb Hr Hnone).
  simpl. split; [apply on_data_settled_src | apply on_data_settled_lib].
Qed.

Lemma first_ready_line_settles_promise_witness :
  fold_left (Src.on_data {| pid := 4242 |})
    ["starting"; "Web UI available at http://localhost:9888/?tkn=abc" +:+ String "013" (String "010" "");
     "Web UI available at http://other/"] Pending
  = Fulfilled (url_parse "http://localhost:9888/?tkn=abc", {| pid := 4242 |}).
Proof.
  refine (proj1 (first_ready_line_settles_promise {| pid := 4242 |}
                   ["starting"] ["Web UI available at http://other/"]
                   ("Web UI available at http://localhost:9888/?tkn=abc"
                    +:+ String "013" (String "010" ""))
                   "" "http://localhost:9888/?tkn=abc" (String "013" (String "010" ""))
                   eq_refl eq_refl _ eq_refl _ eq_refl eq_refl)).
  - discriminate.
  - left. reflexivity.
Defined.

(** ** The listeners of the page *)





(** ** Edge cases of the authentication cookie *)





(** X14. In the refined variant a non-empty [authCookie] flag takes
    precedence: the cookie does not depend on [AUTH_COOKIE], nor on
    anything else in the environment. *)
Theorem authCookie_flag_overrides_environment (h1 h2 : Host) (st : state) (flag : string) :
  argv h1 = argv h2 ->
  Date_getTime h1 = Date_getTime h2 ->
  truthy_str (argv_authCookie (argv h1)) = Some flag ->
  Src.getAuthCookie h1 st = Src.getAuthCookie h2 st.
Proof.
  intros Ha Hd Hf. unfold Src.getAuthCookie. run_monad.
  rewrite <- Ha, <- Hd, Hf.
  destruct (truthy_str (Some flag)); [|reflexivity].
  destruct (JSON_parse _) as [c|]; [|reflexivity].
  destruct c; try reflexivity. simpl.
  destruct (get_field "expires" fields); simpl;
    repeat match goal with
           | |- context [match ?x with _ => _ end] => destruct x; simpl
           end; reflexivity.
Qed.

Lemma authCookie_flag_overrides_environment_witness :
  Src.getAuthCookie
    (Posix.host Posix.argv_cookie ∅ Posix.no_failure) initial
  = Src.getAuthCookie
      (Posix.host Posix.argv_cookie {[ "AUTH_COOKIE" := Posix.null_base64 ]}
         Posix.no_failure) initial.
Proof.
  apply (authCookie_flag_overrides_environment _ _ initial Posix.cookie_base64);
    reflexivity.
Defined.





Lemma spawn_inherits_environment_witness :
  exists command args env' stdio,
    List.filter is_spawn
      (events_of (Src.launchServer "firefox")
         (Posix.host Posix.argv0
            (<["VSCODE_BROWSER" := "webkit"]> Posix.server_env) Posix.no_failure)
         initial)
    = [Spawn command args env' stdio] /\
    env' !! "VSCODE_BROWSER" = Some "webkit".
Proof.
  destruct (proj1 (spawn_inherits_environment "firefox"
              (Posix.host Posix.argv0
                 (<["VSCODE_BROWSER" := "webkit"]> Posix.server_env) Posix.no_failure)
              initial) {| pid := 4242 |}
              (snd (Src.launchServer "firefox"
                      (Posix.host Posix.argv0
                         (<["VSCODE_BROWSER" := "webkit"]> Posix.server_env)
                         Posix.no_failure) initial)))
    as (command & args & env' & stdio & Hf & _ & Hb & _).
  - vm_compute. reflexivity.
  - exists command, args, env', stdio. split; [exact Hf|].
    rewrite Hb. vm_compute. reflexivity.
Defined.

(** ** Unset and empty settings *)

(** X16. An empty [VSCODE_REMOTE_SERVER_PATH] counts as unset, and an
    empty [endpoint] flag as not given: [launchServer] rejects before any
    effect (no temporary directory, no listener, no child), and the module
    body ends the process with code 1. *)
Theorem launchServer_without_path_has_no_effect (browserType : string)
    (stdout : list string) (h : Host) (st : state) :
  argv_help (argv h) = false ->
  truthy_str (argv_endpoint (argv h)) = None ->
  truthy_str (env h !! "VSCODE_REMOTE_SERVER_PATH") = None ->
  (Src.launchServer browserType h st
   = (Throw (VError "VSCODE_REMOTE_SERVER_PATH env variable not provided"), st) /\
   outcome (Src.main stdout) h st = Exit 1 /\
   List.filter is_launch_event (events_of (Src.main stdout) h st) = []) /\
  (Lib.launchServer browserType h st
   = (Throw (VError "VSCODE_REMOTE_SERVER_PATH env variable not provided"), st) /\
   outcome (Lib.main stdout) h st = Exit 1 /\
   List.filter is_launch_event (events_of (Lib.main stdout) h st) = []).
Proof.
  intros Hh He Hp.
  assert (Ls : forall b, Src.launchServer b h st
               = (Throw (VError "VSCODE_REMOTE_SERVER_PATH env variable not provided"), st)).
  { intros b. unfold Src.launchServer. run_monad. rewrite Hp. reflexivity. }
  assert (Ll : forall b, Lib.launchServer b h st
               = (Throw (VError "VSCODE_REMOTE_SERVER_PATH env variable not provided"), st)).
  { intros b. unfold Lib.launchServer. run_monad. rewrite Hp. reflexivity. }
  split.
  - split; [apply Ls|].
    pose proof (src_main_launch_failed stdout h st _ st Hh He (Ls _)) as M.
    unfold outcome, events_of. rewrite M. simpl. split; [reflexivity|].
    rewrite drop_app_length. simpl. rewrite List.filter_app.
    rewrite (filter_exit_listeners is_launch_event) by (intros []; reflexivity).
    reflexivity.
  - split; [apply Ll|].
    pose proof (lib_main_launch_failed stdout h st _ st Hh He (Ll _)) as M.
    unfold outcome, events_of. rewrite M. simpl. split; [reflexivity|].
    rewrite drop_app_length. simpl. rewrite List.filter_app.
    rewrite (filter_exit_listeners is_launch_event) by (intros []; reflexivity).
    reflexivity.
Qed.

Lemma launchServer_without_path_has_no_effect_witness :
  outcome (Src.main [])
    (Posix.host Posix.argv_empty_flags Posix.empty_env Posix.no_failure) initial
  = Exit 1.
Proof.
  refine (proj1 (proj2 (proj1 (launchServer_without_path_has_no_effect "chromium" []
            (Posix.host Posix.argv_empty_flags Posix.empty_env Posix.no_failure) initial
            eq_refl eq_refl _)))).
  vm_compute. reflexivity.
Defined.

(** X17. An empty [AUTH_COOKIE] and an empty [authCookie] flag count as
    unset: no cookie is added. The earlier variant does not read the flag:
    without [AUTH_COOKIE] it adds no cookie whatever the flag holds. *)
Theorem unset_or_empty_cookie_is_no_cookie (browserType : string) (endpoint : Url)
    (server : option ServerHandle) (h : Host) (st : state) :
  truthy_str (env h !! "AUTH_COOKIE") = None ->
  (truthy_str (argv_authCookie (argv h)) = None ->
   cookies_after (Src.runTestsInBrowser browserType endpoint server) h st = cookie_jar st /\
   List.filter is_add_cookies
     (events_of (Src.runTestsInBrowser browserType endpoint server) h st) = []) /\
  (cookies_after (Lib.runTestsInBrowser browserType endpoint server) h st = cookie_jar st /\
   List.filter is_add_cookies
     (events_of (Lib.runTestsInBrowser browserType endpoint server) h st) = []).
Proof.
  intros He. split.
  - intros Hf.
    assert (G : forall s, Src.getAuthCookie h s = (Ret VUndefined, s)).
    { intros s. unfold Src.getAuthCookie. run_monad. rewrite Hf, He. reflexivity. }
    unfold Src.runTestsInBrowser, launch, file_uri_path. run_monad.
    match goal with |- context [if ?b then _ else _] => destruct b end; run_monad;
      [|finish_cookies].
    destruct (fails h (Launch browserType true)); simpl; [finish_cookies|].
    destruct (fails h NewContext); simpl; [finish_cookies|].
    rewrite G. change (truthy VUndefined) with false.
    split_paths; finish_cookies.
  - unfold Lib.runTestsInBrowser, launch, file_uri_path. run_monad.
    rewrite He.
    match goal with |- context [if ?b then _ else _] => destruct b end; run_monad;
      [|finish_cookies].
    split_paths; finish_cookies.
Qed.

Lemma unset_or_empty_cookie_is_no_cookie_witness :
  cookies_after (Src.runTestsInBrowser "chromium" Posix.endpoint0 None)
    (Posix.host Posix.argv_empty_flags Posix.empty_env Posix.no_failure) initial = [] /\
  cookies_after (Lib.runTestsInBrowser "chromium" Posix.endpoint0 None)
    (Posix.host Posix.argv_cookie Posix.empty_env Posix.no_failure) initial = [].
Proof.
  assert (He : forall a,
             truthy_str (env (Posix.host a Posix.empty_env Posix.no_failure)
                           !! "AUTH_COOKIE") = None)
    by (intros a; vm_compute; reflexivity).
  split.
  - exact (proj1 (proj1 (unset_or_empty_cookie_is_no_cookie "chromium" Posix.endpoint0
                           None _ initial (He Posix.argv_empty_flags)) eq_refl)).
  - exact (proj1 (proj2 (unset_or_empty_cookie_is_no_cookie "chromium" Posix.endpoint0
                           None _ initial (He Posix.argv_cookie)))).
Defined.

(** ** Seconds since the epoch *)

(** X18. [+((ms / 1000).toFixed(0))] is within half a second of the
    date: the seconds it gives differ from the milliseconds by at most 500,
    and a whole number of seconds is returned exactly. *)
Theorem epoch_seconds_rounds_to_nearest (ms k : Z) :
  (exists s, epoch_seconds (Some ms) = Num s 0 /\ -500 <= 1000 * s - ms <= 500) /\
  epoch_seconds (Some (1000 * k)) = Num k 0.
Proof.
  split.
  - unfold epoch_seconds. destruct (0 <=? ms) eqn:E.
    + exists ((ms + 500) / 1000). split; [reflexivity|].
      pose proof (Z.div_mod (ms + 500) 1000 ltac:(lia)) as D.
      pose proof (Z.mod_pos_bound (ms + 500) 1000 ltac:(lia)) as B. lia.
    + exists (- ((- ms + 500) / 1000)). split; [reflexivity|].
      pose proof (Z.div_mod (- ms + 500) 1000 ltac:(lia)) as D.
      pose proof (Z.mod_pos_bound (- ms + 500) 1000 ltac:(lia)) as B. lia.
  - unfold epoch_seconds. destruct (0 <=? 1000 * k) eqn:E.
    + f_equal. apply Z.leb_le in E.
      rewrite Z.mul_comm, Z.div_add_l by lia. change (500 / 1000) with 0. lia.
    + f_equal. apply Z.leb_gt in E.
      replace (- (1000 * k) + 500) with ((- k) * 1000 + 500) by lia.
      rewrite Z.div_add_l by lia. change (500 / 1000) with 0. lia.
Qed.

(** ** The temporary data directory *)

Lemma process_exit_events code h st :
  events_of (@process_exit unit code) h st
  = List.map exit_listener_event (on_exit st) ++ [ProcessExit code].
Proof. unfold events_of, process_exit. simpl. apply drop_app_length. Qed.

Lemma src_launchServer_registers_removal browserType h st :
  truthy_str (env h !! "VSCODE_REMOTE_SERVER_PATH") <> None ->
  fails h (TmpDirSync "t") = None ->
  In (RemoveTestData (tmp_name h)) (on_exit (snd (Src.launchServer browserType h st))).
Proof.
  intros Hp Ht. unfold Src.launchServer. run_monad.
  destruct (truthy_str (env h !! "VSCODE_REMOTE_SERVER_PATH")); [|contradiction].
  run_monad. rewrite Ht. simpl.
  destruct (fails h (Require _)); simpl; [apply in_or_app; right; left; reflexivity|].
  destruct (fails h (Spawn _ _ _ _)); simpl; [apply in_or_app; right; left; reflexivity|].
  destruct (argv_debug (argv h)); simpl;
    apply in_or_app; left; apply in_or_app; right; left; reflexivity.
Qed.

Lemma lib_launchServer_registers_removal browserType h st :
  truthy_str (env h !! "VSCODE_REMOTE_SERVER_PATH") <> None ->
  fails h (TmpDirSync "t") = None ->
  In (RemoveTestData (tmp_name h)) (on_exit (snd (Lib.launchServer browserType h st))).
Proof.
  intros Hp Ht. unfold Lib.launchServer. run_monad.
  destruct (truthy_str (env h !! "VSCODE_REMOTE_SERVER_PATH")); [|contradiction].
  run_monad. rewrite Ht. simpl.
  destruct (fails h (Spawn _ _ _ _)); simpl; [apply in_or_app; right; left; reflexivity|].
  apply in_or_app; left; apply in_or_app; right; left; reflexivity.
Qed.

(** X19. Once [launchServer] has created the temporary directory, every
    [process.exit] removes it, also when [require] or [spawn] failed after
    its creation. *)
Theorem temporary_directory_removed_at_exit (browserType : string) (h : Host)
    (st : state) (code : Z) :
  truthy_str (env h !! "VSCODE_REMOTE_SERVER_PATH") <> None ->
  fails h (TmpDirSync "t") = None ->
  In (RimrafSync (tmp_name h))
    (events_of (@process_exit unit code) h (snd (Src.launchServer browserType h st))) /\
  In (RimrafSync (tmp_name h))
    (events_of (@process_exit unit code) h (snd (Lib.launchServer browserType h st))).
Proof.
  intros Hp Ht. rewrite !process_exit_events. split; apply in_or_app; left.
  - apply (in_map exit_listener_event _ (RemoveTestData (tmp_name h))).
    apply src_launchServer_registers_removal; assumption.
  - apply (in_map exit_listener_event _ (RemoveTestData (tmp_name h))).
    apply lib_launchServer_registers_removal; assumption.
Qed.

Lemma temporary_directory_removed_at_exit_witness :
  In (RimrafSync "/tmp/t-1")
    (events_of (@process_exit unit 1)
       (Posix.host Posix.argv0 Posix.server_env Posix.spawn_fails)
       (snd (Src.launchServer "chromium"
               (Posix.host Posix.argv0 Posix.server_env Posix.spawn_fails) initial))).
Proof.
  refine (proj1 (temporary_directory_removed_at_exit "chromium"
                   (Posix.host Posix.argv0 Posix.server_env Posix.spawn_fails)
                   initial 1 _ eq_refl)).
  vm_compute. discriminate.
Defined.
